(** * Crawl service and text compressor: result normalisation, caching,
      batch dispatch

    A shallow embedding of [crawl4ai-service/main.py] and
    [proxy-service/compressor.py].

    Conventions of the embedding.
    - A Python [str] is a Rocq [string] holding its UTF-8 bytes, so
      [str.encode()] is the identity.
    - The untyped payloads of the crawl executor and of the cache (links,
      media, metadata, decoded JSON) are values of [Py.value]: [None],
      booleans, integers, strings, lists and dictionaries with string keys,
      a dictionary being the list of its items in insertion order, its keys
      pairwise distinct.  Floats and user-defined objects are left out.
    - Code that raises returns [Raise e]; code that reads or writes the
      process state (cache client, cache store, clock, executor) is a
      function from a [world] to an outcome and a [world]. *)

From Stdlib Require Import ZArith List String Ascii Lia Bool DecimalString.
From stdpp Require Import base option list strings gmap.

Import ListNotations.

(* ===================================================================== *)
(** ** Characters and small string helpers *)
(* ===================================================================== *)

Module Str.

Definition dquote : ascii := "034"%char.
Definition squote : ascii := "039"%char.
Definition backslash : ascii := "092"%char.

Definition code (c : ascii) : Z := Z.of_N (N_of_ascii c).

Definition char1 (c : ascii) : string := String c EmptyString.

(** Lowercase hexadecimal digit of a number below sixteen. *)
Definition hex_digit (n : Z) : ascii :=
  match String.get (Z.to_nat (n mod 16)) "0123456789abcdef" with
  | Some c => c
  | None => "0"%char
  end.

(** [width] lowercase hexadecimal digits of [n], most significant first. *)
Fixpoint hex_fixed (width : nat) (n : Z) : string :=
  match width with
  | O => EmptyString
  | S w => hex_fixed w (n / 16) +:+ char1 (hex_digit n)
  end.

Definition is_hex_char (c : ascii) : bool :=
  let n := code c in
  ((48 <=? n) && (n <=? 57) || (97 <=? n) && (n <=? 102))%Z.

Fixpoint forallb_string (p : ascii -> bool) (s : string) : bool :=
  match s with
  | EmptyString => true
  | String c s' => p c && forallb_string p s'
  end.

Fixpoint existsb_string (p : ascii -> bool) (s : string) : bool :=
  match s with
  | EmptyString => false
  | String c s' => p c || existsb_string p s'
  end.

(** [sep.join(parts)]. *)
Fixpoint join (sep : string) (parts : list string) : string :=
  match parts with
  | [] => EmptyString
  | [p] => p
  | p :: rest => p +:+ sep +:+ join sep rest
  end.

(** Python's [str(n)] for an integer. *)
Definition of_Z (n : Z) : string := NilZero.string_of_int (Z.to_int n).

(** The characters of a [str]: the UTF-8 bytes grouped by code point, a
    continuation byte ([0x80..0xBF]) staying with the byte before it. *)
Definition is_continuation (c : ascii) : bool :=
  ((128 <=? code c) && (code c <? 192))%Z.

Fixpoint chars_go (cur : string) (s : string) : list string :=
  match s with
  | EmptyString => [cur]
  | String c s' =>
      if is_continuation c then chars_go (cur +:+ char1 c) s'
      else cur :: chars_go (char1 c) s'
  end.

Definition chars (s : string) : list string :=
  match s with
  | EmptyString => []
  | String c s' => chars_go (char1 c) s'
  end.

(** Code point of one character given as its UTF-8 bytes. *)
Fixpoint codepoint_go (acc : Z) (s : string) : Z :=
  match s with
  | EmptyString => acc
  | String c s' => codepoint_go (acc * 64 + (code c - 128)) s'
  end.

Definition codepoint (ch : string) : Z :=
  match ch with
  | EmptyString => 0
  | String c rest =>
      let b := code c in
      let lead :=
        if (b <? 128)%Z then b
        else if (b <? 224)%Z then (b - 192)%Z
        else if (b <? 240)%Z then (b - 224)%Z
        else (b - 240)%Z in
      codepoint_go lead rest
  end.

(** Insertion sort of keyed items by key, in code-point order (which is
    byte order on UTF-8); stable. *)
Fixpoint insert_item {A} (x : string * A) (l : list (string * A))
  : list (string * A) :=
  match l with
  | [] => [x]
  | y :: l' =>
      if String.leb (fst x) (fst y) then x :: l else y :: insert_item x l'
  end.

Definition sort_items {A} (l : list (string * A)) : list (string * A) :=
  fold_right insert_item [] l.

End Str.

(* ===================================================================== *)
(** ** Python values: truthiness, [str], [repr], iteration, [json.dumps] *)
(* ===================================================================== *)

Module Py.

#[warnings="-register-all"]
Inductive value : Type :=
| VNone
| VBool (b : bool)
| VInt (n : Z)
| VStr (s : string)
| VList (l : list value)
| VDict (d : list (string * value)).

Definition is_str (v : value) : bool :=
  match v with VStr _ => true | _ => false end.

(** [bool(v)]. *)
Definition truthy (v : value) : bool :=
  match v with
  | VNone => false
  | VBool b => b
  | VInt n => negb (n =? 0)%Z
  | VStr s => negb (String.eqb s EmptyString)
  | VList l => match l with [] => false | _ => true end
  | VDict d => match d with [] => false | _ => true end
  end.

(** [a or b]. *)
Definition or_ (a b : value) : value := if truthy a then a else b.

(** Item lookup in a dictionary. *)
Fixpoint assoc {A} (k : string) (d : list (string * A)) : option A :=
  match d with
  | [] => None
  | (k', v) :: d' => if String.eqb k k' then Some v else assoc k d'
  end.

(** [d.get(k)] and [d.get(k, dflt)]. *)
Definition get (d : list (string * value)) (k : string) : value :=
  match assoc k d with Some v => v | None => VNone end.

Definition get_default (d : list (string * value)) (k : string)
    (dflt : value) : value :=
  match assoc k d with Some v => v | None => dflt end.

(** [repr] of a string: single quotes unless the text has a single quote
    and no double quote; backslash, the quote, tab, newline and carriage
    return escaped, other control characters and DEL as [\xNN].  A byte
    above [0x7f] is kept, which is what [repr] does for a printable
    character. *)
Definition repr_char (q : ascii) (c : ascii) : string :=
  let n := Str.code c in
  if Ascii.eqb c Str.backslash then "\\"
  else if Ascii.eqb c q then String Str.backslash (Str.char1 q)
  else if (n =? 9)%Z then "\t"
  else if (n =? 10)%Z then "\n"
  else if (n =? 13)%Z then "\r"
  else if ((n <? 32) || (n =? 127))%Z then "\x" +:+ Str.hex_fixed 2 n
  else Str.char1 c.

Fixpoint repr_chars (q : ascii) (s : string) : string :=
  match s with
  | EmptyString => EmptyString
  | String c s' => repr_char q c +:+ repr_chars q s'
  end.

Definition repr_str (s : string) : string :=
  let q :=
    if Str.existsb_string (Ascii.eqb Str.squote) s
       && negb (Str.existsb_string (Ascii.eqb Str.dquote) s)
    then Str.dquote else Str.squote in
  Str.char1 q +:+ repr_chars q s +:+ Str.char1 q.

(** [repr(v)]. *)
Fixpoint repr (v : value) : string :=
  match v with
  | VNone => "None"
  | VBool true => "True"
  | VBool false => "False"
  | VInt n => Str.of_Z n
  | VStr s => repr_str s
  | VList l => "[" +:+ Str.join ", " (map repr l) +:+ "]"
  | VDict d =>
      "{" +:+ Str.join ", "
                (map (fun kv => let '(k, x) := kv in
                                repr_str k +:+ ": " +:+ repr x) d)
          +:+ "}"
  end.

(** [str(v)]: the text itself for a string, [repr] otherwise. *)
Definition str (v : value) : string :=
  match v with
  | VStr s => s
  | _ => repr v
  end.

(** What [for x in v] and [list(v)] go through; [None] of the result
    stands for the [TypeError] of a value that is not iterable. *)
Definition iter (v : value) : option (list value) :=
  match v with
  | VList l => Some l
  | VStr s => Some (map VStr (Str.chars s))
  | VDict d => Some (map (fun kv => VStr (fst kv)) d)
  | _ => None
  end.

(** The type name Python prints in its error messages. *)
Definition type_name (v : value) : string :=
  match v with
  | VNone => "NoneType"
  | VBool _ => "bool"
  | VInt _ => "int"
  | VStr _ => "str"
  | VList _ => "list"
  | VDict _ => "dict"
  end.

(** [json.dumps] with its defaults ([ensure_ascii], separators [", "] and
    [": "]): string escaping. *)
Definition json_escape_char (ch : string) : string :=
  let n := Str.codepoint ch in
  if (n =? 34)%Z then String Str.backslash (Str.char1 Str.dquote)
  else if (n =? 92)%Z then "\\"
  else if (n =? 10)%Z then "\n"
  else if (n =? 13)%Z then "\r"
  else if (n =? 9)%Z then "\t"
  else if (n =? 8)%Z then "\b"
  else if (n =? 12)%Z then "\f"
  else if ((32 <=? n) && (n <=? 126))%Z then ch
  else if (n <? 65536)%Z then "\u" +:+ Str.hex_fixed 4 n
  else
    let v := (n - 65536)%Z in
    "\u" +:+ Str.hex_fixed 4 (Z.lor 55296 (Z.land (Z.shiftr v 10) 1023))
    +:+ "\u" +:+ Str.hex_fixed 4 (Z.lor 56320 (Z.land v 1023)).

Definition json_str (s : string) : string :=
  Str.char1 Str.dquote
  +:+ Str.join EmptyString (map json_escape_char (Str.chars s))
  +:+ Str.char1 Str.dquote.

(** [json.dumps(v, sort_keys=sort)]. *)
Fixpoint json_dumps (sort : bool) (v : value) : string :=
  match v with
  | VNone => "null"
  | VBool true => "true"
  | VBool false => "false"
  | VInt n => Str.of_Z n
  | VStr s => json_str s
  | VList l => "[" +:+ Str.join ", " (map (json_dumps sort) l) +:+ "]"
  | VDict d =>
      let items :=
        map (fun kv => let '(k, x) := kv in (k, json_dumps sort x)) d in
      let items := if sort then Str.sort_items items else items in
      "{" +:+ Str.join ", "
                (map (fun kv => json_str (fst kv) +:+ ": " +:+ snd kv) items)
          +:+ "}"
  end.

End Py.

(* ===================================================================== *)
(** ** [hashlib.md5]: the MD5 digest (RFC 1321) on 32-bit words *)
(* ===================================================================== *)

Module MD5.

Local Open Scope Z_scope.

Definition add32 (a b : Z) : Z := (a + b) mod 2 ^ 32.
Definition not32 (a : Z) : Z := Z.lxor a 4294967295.
Definition rotl32 (x c : Z) : Z :=
  Z.lor (Z.shiftl x c mod 2 ^ 32) (Z.shiftr x (32 - c)).

Definition shifts : list Z :=
  [7; 12; 17; 22; 7; 12; 17; 22; 7; 12; 17; 22; 7; 12; 17; 22;
   5; 9; 14; 20; 5; 9; 14; 20; 5; 9; 14; 20; 5; 9; 14; 20;
   4; 11; 16; 23; 4; 11; 16; 23; 4; 11; 16; 23; 4; 11; 16; 23;
   6; 10; 15; 21; 6; 10; 15; 21; 6; 10; 15; 21; 6; 10; 15; 21].

(** [floor(2^32 * abs(sin(i + 1)))] for [i] from 0 to 63. *)
Definition sines : list Z :=
  [3614090360; 3905402710; 606105819; 3250441966;
   4118548399; 1200080426; 2821735955; 4249261313;
   1770035416; 2336552879; 4294925233; 2304563134;
   1804603682; 4254626195; 2792965006; 1236535329;
   4129170786; 3225465664; 643717713; 3921069994;
   3593408605; 38016083; 3634488961; 3889429448;
   568446438; 3275163606; 4107603335; 1163531501;
   2850285829; 4243563512; 1735328473; 2368359562;
   4294588738; 2272392833; 1839030562; 4259657740;
   2763975236; 1272893353; 4139469664; 3200236656;
   681279174; 3936430074; 3572445317; 76029189;
   3654602809; 3873151461; 530742520; 3299628645;
   4096336452; 1126891415; 2878612391; 4237533241;
   1700485571; 2399980690; 4293915773; 2240044497;
   1873313359; 4264355552; 2734768916; 1309151649;
   4149444226; 3174756917; 718787259; 3951481745].

(** The four chaining words. *)
Record state : Type := State { sa : Z; sb : Z; sc : Z; sd : Z }.

Definition init : state :=
  State 1732584193 4023233417 2562383102 271733878.

Definition at_ (l : list Z) (i : Z) : Z := nth (Z.to_nat i) l 0.

(** Step [i] of the compression function on the sixteen words [m]. *)
Definition step (m : list Z) (st : state) (i : Z) : state :=
  let '(State a b c d) := st in
  let '(f, g) :=
    if i <? 16 then (Z.lor (Z.land b c) (Z.land (not32 b) d), i)
    else if i <? 32 then
      (Z.lor (Z.land d b) (Z.land (not32 d) c), (5 * i + 1) mod 16)
    else if i <? 48 then (Z.lxor (Z.lxor b c) d, (3 * i + 5) mod 16)
    else (Z.lxor c (Z.lor b (not32 d)), (7 * i) mod 16) in
  let f := add32 (add32 (add32 f a) (at_ sines i)) (at_ m g) in
  State d (add32 b (rotl32 f (at_ shifts i))) b c.

(** Sixteen little-endian words of a 64-byte block. *)
Definition word_le (bytes : list Z) (j : Z) : Z :=
  at_ bytes (4 * j) + at_ bytes (4 * j + 1) * 2 ^ 8
  + at_ bytes (4 * j + 2) * 2 ^ 16 + at_ bytes (4 * j + 3) * 2 ^ 24.

Definition words (block : list Z) : list Z :=
  map (fun j => word_le block (Z.of_nat j)) (seq 0 16).

Definition compress_block (st : state) (block : list Z) : state :=
  let m := words block in
  let r := fold_left (fun s i => step m s (Z.of_nat i)) (seq 0 64) st in
  State (add32 (sa st) (sa r)) (add32 (sb st) (sb r))
        (add32 (sc st) (sc r)) (add32 (sd st) (sd r)).

(** [n] as [width] little-endian bytes. *)
Fixpoint bytes_le (width : nat) (n : Z) : list Z :=
  match width with
  | O => []
  | S w => n mod 256 :: bytes_le w (n / 256)
  end.

(** The message, a [0x80] byte, zero bytes up to 56 modulo 64, and the bit
    length on eight bytes. *)
Definition pad (msg : list Z) : list Z :=
  let len := Z.of_nat (length msg) in
  msg ++ [128] ++ repeat 0 (Z.to_nat ((55 - len) mod 64))
      ++ bytes_le 8 ((8 * len) mod 2 ^ 64).

Fixpoint blocks (n : nat) (l : list Z) : list (list Z) :=
  match n with
  | O => []
  | S n' => firstn 64 l :: blocks n' (skipn 64 l)
  end.

Definition run (msg : list Z) : state :=
  let p := pad msg in
  fold_left compress_block (blocks (length p / 64)%nat p) init.

Definition digest_bytes (st : state) : list Z :=
  bytes_le 4 (sa st) ++ bytes_le 4 (sb st)
  ++ bytes_le 4 (sc st) ++ bytes_le 4 (sd st).

Fixpoint bytes_of_string (s : string) : list Z :=
  match s with
  | EmptyString => []
  | String c s' => Str.code c :: bytes_of_string s'
  end.

Definition hex_of_bytes (l : list Z) : string :=
  Str.join EmptyString (map (Str.hex_fixed 2) l).

(** [hashlib.md5(data).hexdigest()]. *)
Definition hexdigest (data : string) : string :=
  hex_of_bytes (digest_bytes (run (bytes_of_string data))).

End MD5.

(* ===================================================================== *)
(** ** Exceptions and outcomes *)
(* ===================================================================== *)

(** The exceptions the two services raise or let through; each carries
    the text [str(e)] is built from. *)
Inductive exn : Type :=
| HTTPException (status_code : Z) (detail : string)
| ValidationError (msg : string)
| TypeError (msg : string)
| ValueError (msg : string)
| IndexError (msg : string)
| ConnectionError (msg : string)
| UpstreamFault (msg : string).

(** [str(e)]; an [HTTPException] prints as its status, a colon and its
    detail. *)
Definition exn_str (e : exn) : string :=
  match e with
  | HTTPException c d => Str.of_Z c +:+ ": " +:+ d
  | ValidationError m | TypeError m | ValueError m | IndexError m
  | ConnectionError m | UpstreamFault m => m
  end.

Inductive outcome (A : Type) : Type :=
| Ok (a : A)
| Raise (e : exn).

Arguments Ok {A} a.
Arguments Raise {A} e.

Definition obind {A B} (o : outcome A) (k : A -> outcome B) : outcome B :=
  match o with
  | Ok a => k a
  | Raise e => Raise e
  end.

Definition is_ok {A} (o : outcome A) : bool :=
  match o with Ok _ => true | Raise _ => false end.

(** [for x in v]: the items, or the [TypeError] of a value that cannot be
    iterated. *)
Definition iterate (v : Py.value) : outcome (list Py.value) :=
  match Py.iter v with
  | Some l => Ok l
  | None =>
      Raise (TypeError ("'" +:+ Py.type_name v +:+ "' object is not iterable"))
  end.

(** [datetime.utcnow()] and [isoformat()]. *)
Record datetime : Type := Datetime {
  year : Z; month : Z; day : Z;
  hour : Z; minute : Z; second : Z; microsecond : Z
}.

Definition pad0 (width : nat) (n : Z) : string :=
  let s := Str.of_Z n in
  String.concat EmptyString
    (repeat "0"%string (width - String.length s)) +:+ s.

Definition isoformat (d : datetime) : string :=
  pad0 4 (year d) +:+ "-" +:+ pad0 2 (month d) +:+ "-" +:+ pad0 2 (day d)
  +:+ "T" +:+ pad0 2 (hour d) +:+ ":" +:+ pad0 2 (minute d)
  +:+ ":" +:+ pad0 2 (second d)
  +:+ (if (microsecond d =? 0)%Z then EmptyString
       else "." +:+ pad0 6 (microsecond d)).

(* ===================================================================== *)
(** ** crawl4ai-service/main.py *)
(* ===================================================================== *)

Module Crawl.

(** *** Pydantic models *)

(** [CrawlRequest]; [url] is the text [str(request.url)] of an accepted
    [HttpUrl]. *)
Record CrawlRequest : Type := mkCrawlRequest {
  url : string;
  extraction_strategy : string;
  chunking_strategy : string;
  screenshot : bool;
  wait_for : option string;
  timeout : Z;
  js_code : option string;
  css_selector : option string;
  word_count_threshold : Z
}.

Record BatchCrawlRequest : Type := mkBatchCrawlRequest {
  urls : list string;
  batch_extraction_strategy : string;
  batch_chunking_strategy : string;
  batch_screenshot : bool;
  batch_timeout : Z
}.

Record CrawlResponse : Type := mkCrawlResponse {
  resp_url : string;
  resp_markdown : string;
  resp_html : string;
  resp_links : list string;
  resp_media : list (string * list string);
  resp_metadata : list (string * Py.value);
  resp_screenshot : option string;
  resp_timestamp : string
}.

Definition mem (s : string) (l : list string) : bool :=
  existsb (String.eqb s) l.

(** The [Field] constraints: [pattern="^(auto|llm|cosine)$"],
    [pattern="^(regex|markdown|sliding)$"], [ge=5, le=120], [ge=1]. *)
Definition extraction_ok (s : string) : bool :=
  mem s ["auto"; "llm"; "cosine"]%string.
Definition chunking_ok (s : string) : bool :=
  mem s ["regex"; "markdown"; "sliding"]%string.
Definition timeout_ok (t : Z) : bool := ((5 <=? t) && (t <=? 120))%Z.
Definition word_count_ok (n : Z) : bool := (1 <=? n)%Z.

Definition CrawlRequest_valid (r : CrawlRequest) : bool :=
  extraction_ok (extraction_strategy r) && chunking_ok (chunking_strategy r)
  && timeout_ok (timeout r) && word_count_ok (word_count_threshold r).

Definition BatchCrawlRequest_valid (r : BatchCrawlRequest) : bool :=
  extraction_ok (batch_extraction_strategy r)
  && chunking_ok (batch_chunking_strategy r)
  && timeout_ok (batch_timeout r).

(** The call [CrawlRequest(url=.., extraction_strategy=.., chunking_strategy=..,
    screenshot=.., timeout=..)] of [batch_crawl]: the fields not passed take
    the defaults of the class, and the constraints are checked. *)
Definition CrawlRequest_new (u e c : string) (s : bool) (t : Z)
  : outcome CrawlRequest :=
  let r := {| url := u; extraction_strategy := e; chunking_strategy := c;
              screenshot := s; wait_for := None; timeout := t;
              js_code := None; css_selector := None;
              word_count_threshold := 10 |} in
  if CrawlRequest_valid r then Ok r
  else Raise (ValidationError "validation error for CrawlRequest").

(** *** Link and media coercion *)

(** [link.get("href") or link.get("url") or link.get("link") or
    link.get("src")]. *)
Definition link_url (d : list (string * Py.value)) : Py.value :=
  Py.or_ (Py.get d "href")
    (Py.or_ (Py.get d "url") (Py.or_ (Py.get d "link") (Py.get d "src"))).

(** The loop body of [perform_crawl] over [internal + external], which is
    also the loop body of [convert_links_to_strings]. *)
Definition coerce_link (link : Py.value) : string :=
  match link with
  | Py.VDict d =>
      let u := link_url d in
      if Py.truthy u then Py.str u else Py.str link
  | Py.VStr s => s
  | _ => Py.str link
  end.

(** The loop body of the final conversion and of the cache-hit path. *)
Definition recoerce_link (item : Py.value) : string :=
  match item with
  | Py.VDict d =>
      let u := link_url d in
      if Py.truthy u then Py.str u else Py.str item
  | _ => Py.str item
  end.

(** [[str(l) for l in xs]]. *)
Definition safety_pass (xs : list string) : list string :=
  map (fun l => Py.str (Py.VStr l)) xs.

(** [CrawlResponse.convert_links_to_strings]. *)
Definition convert_links_to_strings (v : Py.value) : list string :=
  match v with
  | Py.VList l => map coerce_link l
  | _ => []
  end.

(** The loop body over [images] and over [videos]. *)
Definition coerce_media (m : Py.value) : Py.value :=
  match m with
  | Py.VDict d =>
      Py.get_default d "src" (Py.get_default d "url" (Py.VStr (Py.str m)))
  | _ => Py.VStr (Py.str m)
  end.

(** *** Validation of the keyword call of [CrawlResponse] on a dictionary *)

Definition field_str (name : string) (d : list (string * Py.value))
  : outcome string :=
  match Py.assoc name d with
  | Some (Py.VStr s) => Ok s
  | Some _ => Raise (ValidationError (name +:+ ": Input should be a valid string"))
  | None => Raise (ValidationError (name +:+ ": Field required"))
  end.

Fixpoint all_str (l : list Py.value) : option (list string) :=
  match l with
  | [] => Some []
  | Py.VStr s :: l' =>
      match all_str l' with Some r => Some (s :: r) | None => None end
  | _ => None
  end.

Fixpoint media_items (d : list (string * Py.value))
  : option (list (string * list string)) :=
  match d with
  | [] => Some []
  | (k, Py.VList l) :: d' =>
      match all_str l, media_items d' with
      | Some r, Some rest => Some ((k, r) :: rest)
      | _, _ => None
      end
  | _ => None
  end.

Definition field_media (d : list (string * Py.value))
  : outcome (list (string * list string)) :=
  match Py.assoc "media" d with
  | Some (Py.VDict m) =>
      match media_items m with
      | Some r => Ok r
      | None => Raise (ValidationError "media: Input should be a valid string")
      end
  | Some _ => Raise (ValidationError "media: Input should be a valid dictionary")
  | None => Raise (ValidationError "media: Field required")
  end.

Definition field_metadata (d : list (string * Py.value))
  : outcome (list (string * Py.value)) :=
  match Py.assoc "metadata" d with
  | Some (Py.VDict m) => Ok m
  | Some _ =>
      Raise (ValidationError "metadata: Input should be a valid dictionary")
  | None => Raise (ValidationError "metadata: Field required")
  end.

Definition field_links (d : list (string * Py.value)) : outcome (list string) :=
  match Py.assoc "links" d with
  | Some v => Ok (convert_links_to_strings v)
  | None => Raise (ValidationError "links: Field required")
  end.

Definition field_screenshot (d : list (string * Py.value))
  : outcome (option string) :=
  match Py.assoc "screenshot" d with
  | None | Some Py.VNone => Ok None
  | Some (Py.VStr s) => Ok (Some s)
  | Some _ => Raise (ValidationError "screenshot: Input should be a valid string")
  end.

(** [CrawlResponse] called with the items of [d] as keywords: every field is checked against its annotation,
    [links] after its [mode='before'] validator; keys that are no field are
    ignored. *)
Definition CrawlResponse_new (d : list (string * Py.value))
  : outcome CrawlResponse :=
  obind (field_str "url" d) (fun u =>
  obind (field_str "markdown" d) (fun md =>
  obind (field_str "html" d) (fun h =>
  obind (field_links d) (fun ls =>
  obind (field_media d) (fun me =>
  obind (field_metadata d) (fun mt =>
  obind (field_screenshot d) (fun sc =>
  obind (field_str "timestamp" d) (fun ts =>
  Ok {| resp_url := u; resp_markdown := md; resp_html := h;
        resp_links := ls; resp_media := me; resp_metadata := mt;
        resp_screenshot := sc; resp_timestamp := ts |})))))))).

(** *** The crawl executor *)

(** [result.markdown]: an object with [raw_markdown] and [fit_markdown], or
    any other value. *)
Inductive markdown_result : Type :=
| MarkdownObject (raw_markdown fit_markdown : Py.value)
| MarkdownValue (v : Py.value).

(** What [crawler.arun] returns; [res_cleaned_html] and [res_screenshot]
    are [None] when the attribute does not exist ([hasattr] is false). *)
Record ExecResult : Type := mkExecResult {
  res_success : bool;
  res_error_message : string;
  res_markdown : markdown_result;
  res_cleaned_html : option Py.value;
  res_html : Py.value;
  res_links : Py.value;
  res_media : Py.value;
  res_metadata : Py.value;
  res_screenshot : option Py.value
}.

(** [get_chunking_strategy] and [get_extraction_strategy]. *)
Inductive chunking : Type := RegexChunking | SlidingWindowChunking.

Definition get_chunking_strategy (strategy_name : string) : chunking :=
  if String.eqb strategy_name "regex" then RegexChunking
  else if String.eqb strategy_name "markdown" then RegexChunking
  else if String.eqb strategy_name "sliding" then SlidingWindowChunking
  else RegexChunking.

(** [CosineStrategy(semantic_filter, word_count_threshold, max_dist,
    linkage_method, top_k)], its [max_dist] of 0.2 kept as the pair 2/10. *)
Record CosineStrategy : Type := mkCosineStrategy {
  semantic_filter : string;
  cosine_word_count_threshold : Z;
  max_dist : Z * Z;
  linkage_method : string;
  top_k : Z
}.

Definition get_extraction_strategy (strategy_name : string)
  : option CosineStrategy :=
  if String.eqb strategy_name "cosine" then
    Some {| semantic_filter := EmptyString; cosine_word_count_threshold := 10;
            max_dist := (2, 10)%Z; linkage_method := "ward"; top_k := 3 |}
  else None.

(** [CrawlerRunConfig]; [cache_mode] is always [CacheMode.BYPASS] and
    [verbose] always true. *)
Record CrawlerRunConfig : Type := mkCrawlerRunConfig {
  cfg_word_count_threshold : Z;
  cfg_chunking_strategy : chunking;
  cfg_extraction_strategy : option CosineStrategy;
  cfg_screenshot : bool;
  cfg_wait_for : option string;
  cfg_js_code : option string;
  cfg_css_selector : option string;
  cfg_page_timeout : Z;
  cfg_remove_overlay_elements : bool
}.

Definition run_config_of (request : CrawlRequest) : CrawlerRunConfig :=
  {| cfg_word_count_threshold := word_count_threshold request;
     cfg_chunking_strategy :=
       get_chunking_strategy (chunking_strategy request);
     cfg_extraction_strategy :=
       get_extraction_strategy (extraction_strategy request);
     cfg_screenshot := screenshot request;
     cfg_wait_for := wait_for request;
     cfg_js_code := js_code request;
     cfg_css_selector := css_selector request;
     cfg_page_timeout :=
       (if (timeout request =? 0)%Z then 30000 else timeout request * 1000)%Z;
     cfg_remove_overlay_elements := true |}.

(** *** Process state *)

(** A value held by the cache store.  The store holds text; [Json v] is the
    text [json.dumps(v)], which [json.loads] reads back as [v], and
    [NotJson] is a text [json.loads] rejects. *)
Inductive blob : Type :=
| Json (v : Py.value)
| NotJson (raw : string).

(** - [redis_client]: whether the module global holds a client (it is
      [None] after a failed start-up);
    - [redis_up]: whether the store answers a call made now;
    - [redis_store]: key to expiry in seconds and value;
    - [utcnow]: what [datetime.utcnow()] returns now;
    - [executor]: what [crawler.arun(url, config)] does;
    - [executor_calls]: the calls made to it, latest first. *)
Record world : Type := mkWorld {
  redis_client : bool;
  redis_up : bool;
  redis_store : gmap string (Z * blob);
  utcnow : datetime;
  executor : string -> CrawlerRunConfig -> outcome ExecResult;
  executor_calls : list (string * CrawlerRunConfig)
}.

Definition set_store (st : gmap string (Z * blob)) (w : world) : world :=
  {| redis_client := redis_client w; redis_up := redis_up w;
     redis_store := st; utcnow := utcnow w; executor := executor w;
     executor_calls := executor_calls w |}.

Definition log_call (u : string) (c : CrawlerRunConfig) (w : world) : world :=
  {| redis_client := redis_client w; redis_up := redis_up w;
     redis_store := redis_store w; utcnow := utcnow w;
     executor := executor w;
     executor_calls := (u, c) :: executor_calls w |}.

(** Computations over the process state. *)
Definition M (A : Type) : Type := world -> outcome A * world.

Definition ret {A} (a : A) : M A := fun w => (Ok a, w).
Definition raise {A} (e : exn) : M A := fun w => (Raise e, w).
Definition bind {A B} (m : M A) (k : A -> M B) : M B :=
  fun w =>
    match m w with
    | (Ok a, w') => k a w'
    | (Raise e, w') => (Raise e, w')
    end.
Definition lift {A} (o : outcome A) : M A := fun w => (o, w).

(** [try: m except Exception as e: h e]. *)
Definition try_except {A} (m : M A) (h : exn -> M A) : M A :=
  fun w =>
    match m w with
    | (Ok a, w') => (Ok a, w')
    | (Raise e, w') => h e w'
    end.

Notation "'let*' x ':=' c1 'in' c2" := (bind c1 (fun x => c2))
  (at level 10, x name, c1 at level 100, c2 at level 200).

(** The three calls made on the client. *)
Definition redis_unreachable : exn :=
  ConnectionError "Error connecting to redis".

Definition redis_get (key : string) : M (option blob) :=
  fun w =>
    if redis_up w then (Ok (snd <$> redis_store w !! key), w)
    else (Raise redis_unreachable, w).

Definition redis_setex (key : string) (ttl : Z) (v : blob) : M unit :=
  fun w =>
    if redis_up w then (Ok tt, set_store (<[key := (ttl, v)]> (redis_store w)) w)
    else (Raise redis_unreachable, w).

(** [delete] answers the number of keys removed. *)
Definition redis_delete (key : string) : M Z :=
  fun w =>
    if redis_up w then
      match redis_store w !! key with
      | Some _ => (Ok 1%Z, set_store (delete key (redis_store w)) w)
      | None => (Ok 0%Z, w)
      end
    else (Raise redis_unreachable, w).

(** *** Cache helpers and the cache key *)

(** [get_cached_result]: a Python value, [None] for a miss. *)
Definition get_cached_result (cache_key : string) : M Py.value :=
  fun w =>
    if negb (redis_client w) then (Ok Py.VNone, w)
    else
      try_except
        (let* cached := redis_get cache_key in
         match cached with
         | Some (Json v) => ret v
         | Some (NotJson raw) =>
             if String.eqb raw EmptyString then ret Py.VNone
             else raise (ValueError "Expecting value")
         | None => ret Py.VNone
         end)
        (fun _ => ret Py.VNone) w.

(** [set_cached_result(cache_key, result, ttl)]. *)
Definition set_cached_result (cache_key : string) (result : Py.value)
    (ttl : Z) : M unit :=
  fun w =>
    if negb (redis_client w) then (Ok tt, w)
    else try_except (redis_setex cache_key ttl (Json result))
                    (fun _ => ret tt) w.

Definition default_ttl : Z := 86400.

(** [generate_cache_key(url, params)]. *)
Definition generate_cache_key (u : string) (params : Py.value) : string :=
  let key_data := u +:+ ":" +:+ Py.json_dumps true params in
  "crawl:" +:+ MD5.hexdigest key_data.

(** The [cache_params] dictionary of [perform_crawl] and of [batch_crawl]. *)
Definition cache_params (e c : string) (s : bool) : Py.value :=
  Py.VDict [("extraction", Py.VStr e); ("chunking", Py.VStr c);
            ("screenshot", Py.VBool s)]%string.

Definition request_cache_key (request : CrawlRequest) : string :=
  generate_cache_key (url request)
    (cache_params (extraction_strategy request) (chunking_strategy request)
       (screenshot request)).

(** *** Normalisation of an executor result *)

Definition markdown_content (m : markdown_result) : Py.value :=
  match m with
  | MarkdownObject raw fit => Py.or_ raw (Py.or_ fit (Py.VStr EmptyString))
  | MarkdownValue (Py.VStr s) => Py.VStr s
  | MarkdownValue v =>
      if Py.truthy v then Py.VStr (Py.str v) else Py.VStr EmptyString
  end.

Definition html_content (r : ExecResult) : Py.value :=
  let raw := Py.or_ (res_html r) (Py.VStr EmptyString) in
  match res_cleaned_html r with
  | Some c => if Py.truthy c then c else raw
  | None => raw
  end.

Definition as_dict (v : Py.value) : list (string * Py.value) :=
  match v with Py.VDict d => d | _ => [] end.

(** [links_dict.get(part, []) or []]. *)
Definition link_partition (r : ExecResult) (part : string) : Py.value :=
  Py.or_ (Py.get_default (as_dict (res_links r)) part (Py.VList []))
         (Py.VList []).

(** [all_links] after the loop over [list(internal_links) +
    list(external_links)]. *)
Definition all_links (r : ExecResult) : outcome (list string) :=
  obind (iterate (link_partition r "internal")) (fun li =>
  obind (iterate (link_partition r "external")) (fun le =>
  Ok (map coerce_link (li ++ le)))).

(** [final_links_list]: the final conversion, then the safety pass. *)
Definition final_links_list (links : list string) : list string :=
  safety_pass (map (fun item => recoerce_link (Py.VStr item)) links).

(** [image_urls] and [video_urls]. *)
Definition media_urls (r : ExecResult) (kind : string)
  : outcome (list Py.value) :=
  obind (iterate (Py.get_default (as_dict (res_media r)) kind (Py.VList [])))
        (fun items => Ok (map coerce_media items)).

Definition metadata_of (r : ExecResult) : Py.value :=
  let md := as_dict (res_metadata r) in
  Py.VDict [("title", Py.get_default md "title" (Py.VStr EmptyString));
            ("description",
             Py.get_default md "description" (Py.VStr EmptyString));
            ("keywords", Py.get_default md "keywords" (Py.VList []));
            ("language", Py.get_default md "language" (Py.VStr EmptyString))
           ]%string.

Definition screenshot_of (request : CrawlRequest) (r : ExecResult)
  : Py.value :=
  match screenshot request, res_screenshot r with
  | true, Some s => s
  | _, _ => Py.VNone
  end.

(** [response_data], built from a successful result at time [now]. *)
Definition response_data (request : CrawlRequest) (r : ExecResult)
    (now : datetime) : outcome (list (string * Py.value)) :=
  obind (all_links r) (fun links =>
  obind (media_urls r "images") (fun image_urls =>
  obind (media_urls r "videos") (fun video_urls =>
  Ok [("url", Py.VStr (url request));
      ("markdown", markdown_content (res_markdown r));
      ("html", html_content r);
      ("links", Py.VList (map Py.VStr (final_links_list links)));
      ("media", Py.VDict [("images", Py.VList image_urls);
                          ("videos", Py.VList video_urls)]);
      ("metadata", metadata_of r);
      ("screenshot", screenshot_of request r);
      ("timestamp", Py.VStr (isoformat now))]%string))).

(** *** perform_crawl *)

(** [d[k] = v] on a dictionary. *)
Fixpoint set_item (k : string) (v : Py.value) (d : list (string * Py.value))
  : list (string * Py.value) :=
  match d with
  | [] => [(k, v)]
  | (k', x) :: d' =>
      if String.eqb k k' then (k, v) :: d' else (k', x) :: set_item k v d'
  end.

(** The links of a cached entry after the loop of the cache-hit branch and
    its safety pass. *)
Definition cached_links (items : list Py.value) : list string :=
  safety_pass (map recoerce_link items).

(** The cache-hit branch, on a truthy [cached_result].  A value that is no
    dictionary fails with a [TypeError], at the membership test, at the
    subscript or at the keyword call. *)
Definition cache_hit (cached_result : Py.value) : outcome CrawlResponse :=
  match cached_result with
  | Py.VDict d =>
      match Py.assoc "links" d with
      | Some ls =>
          if Py.truthy ls then
            obind (iterate ls) (fun items =>
              CrawlResponse_new
                (set_item "links"
                   (Py.VList (map Py.VStr (cached_links items))) d))
          else CrawlResponse_new d
      | None => CrawlResponse_new d
      end
  | v =>
      Raise (TypeError ("'" +:+ Py.type_name v +:+ "' object is not a mapping"))
  end.

Definition call_executor (u : string) (c : CrawlerRunConfig)
  : M ExecResult :=
  fun w => (executor w u c, log_call u c w).

Definition now : M datetime := fun w => (Ok (utcnow w), w).

(** The [try] block of the cache-miss branch. *)
Definition crawl_fresh (request : CrawlRequest) (cache_key : string)
  : M CrawlResponse :=
  let* result := call_executor (url request) (run_config_of request) in
  if negb (res_success result) then
    raise (HTTPException 500
             ("Crawl failed: " +:+ res_error_message result))
  else
    let* t := now in
    let* data := lift (response_data request result t) in
    let* _ := set_cached_result cache_key (Py.VDict data) default_ttl in
    lift (CrawlResponse_new data).

Definition perform_crawl (request : CrawlRequest) : M CrawlResponse :=
  let cache_key := request_cache_key request in
  let* cached_result := get_cached_result cache_key in
  if Py.truthy cached_result then lift (cache_hit cached_result)
  else
    try_except (crawl_fresh request cache_key)
      (fun e => raise (HTTPException 500 (exn_str e))).

(** *** Endpoints *)

Record BatchResponse : Type := mkBatchResponse {
  status : string;
  total_urls : nat;
  jobs : list (string * string);
  message : string
}.

(** The loop of [batch_crawl] over [request.urls], with [job_ids] and the
    tasks added to [background_tasks] so far. *)
Fixpoint batch_loop (request : BatchCrawlRequest) (us : list string)
    (job_ids : list (string * string)) (background_tasks : list CrawlRequest)
  : outcome (list (string * string)) * list CrawlRequest :=
  match us with
  | [] => (Ok job_ids, background_tasks)
  | u :: rest =>
      match CrawlRequest_new u (batch_extraction_strategy request)
              (batch_chunking_strategy request) (batch_screenshot request)
              (batch_timeout request) with
      | Raise e => (Raise e, background_tasks)
      | Ok crawl_req =>
          let job_id :=
            generate_cache_key u
              (cache_params (batch_extraction_strategy request)
                 (batch_chunking_strategy request)
                 (batch_screenshot request)) in
          batch_loop request rest (job_ids ++ [(u, job_id)])
            (background_tasks ++ [crawl_req])
      end
  end.

(** [batch_crawl(request, background_tasks)]: the response or the error,
    and the tasks [background_tasks] holds afterwards. *)
Definition batch_crawl (request : BatchCrawlRequest)
    (background_tasks : list CrawlRequest)
  : outcome BatchResponse * list CrawlRequest :=
  if (50 <? length (urls request))%nat then
    (Raise (HTTPException 400 "Maximum 50 URLs allowed per batch"),
     background_tasks)
  else
    match batch_loop request (urls request) [] background_tasks with
    | (Ok job_ids, bt) =>
        (Ok {| status := "processing";
               total_urls := length (urls request);
               jobs := job_ids;
               message := "Batch crawl initiated. Use job_id to retrieve results from cache." |},
         bt)
    | (Raise e, bt) => (Raise e, bt)
    end.

(** The background tasks run one after the other once the response is
    sent; a task that raises ends the run. *)
Fixpoint run_background_tasks (tasks : list CrawlRequest) (w : world)
  : world :=
  match tasks with
  | [] => w
  | t :: rest =>
      match perform_crawl t w with
      | (Ok _, w') => run_background_tasks rest w'
      | (Raise _, w') => w'
      end
  end.

(** [GET /result/{job_id}]. *)
Definition get_result (job_id : string) : M Py.value :=
  let* result := get_cached_result ("crawl:" +:+ job_id) in
  if negb (Py.truthy result) then
    raise (HTTPException 404 "Result not found or expired")
  else ret result.

(** [DELETE /cache/{job_id}]. *)
Definition clear_cache (job_id : string) : M Py.value :=
  fun w =>
    if negb (redis_client w) then
      (Raise (HTTPException 503 "Cache service unavailable"), w)
    else
      try_except
        (let* deleted := redis_delete ("crawl:" +:+ job_id) in
         ret (Py.VDict
                [("status",
                  Py.VStr (if (deleted =? 0)%Z then "not_found"
                           else "success"));
                 ("job_id", Py.VStr job_id)]%string))
        (fun e => raise (HTTPException 500 (exn_str e))) w.

(** *** Start-up, health and the single-crawl endpoint *)

Definition set_client (c : bool) (w : world) : world :=
  {| redis_client := c; redis_up := redis_up w;
     redis_store := redis_store w; utcnow := utcnow w;
     executor := executor w; executor_calls := executor_calls w |}.

(** [os.getenv(name, dflt)]. *)
Definition os_getenv (environ : list (string * string)) (name dflt : string)
  : string :=
  match Py.assoc name environ with Some v => v | None => dflt end.

(** [str.isspace] on one code point: the characters [str.strip()] removes. *)
Definition isspace (n : Z) : bool :=
  ((9 <=? n) && (n <=? 13) || (28 <=? n) && (n <=? 32)
   || (n =? 133) || (n =? 160) || (n =? 5760)
   || (8192 <=? n) && (n <=? 8202)
   || (n =? 8232) || (n =? 8233) || (n =? 8239) || (n =? 8287)
   || (n =? 12288))%Z.

(** [bool(s.strip())]: some character of [s] is no white space. *)
Definition strip_truthy (s : string) : bool :=
  existsb (fun ch => negb (isspace (Str.codepoint ch))) (Str.chars s).

(** [redis_url] of [startup_event]. *)
Definition redis_url (environ : list (string * string)) : string :=
  let redis_host := os_getenv environ "REDIS_HOST" "redis" in
  let redis_port := os_getenv environ "REDIS_PORT" "6379" in
  let redis_password := os_getenv environ "REDIS_PASSWORD" EmptyString in
  if negb (String.eqb redis_password EmptyString)
     && strip_truthy redis_password
  then "redis://:" +:+ redis_password +:+ "@" +:+ redis_host
       +:+ ":" +:+ redis_port
  else "redis://" +:+ redis_host +:+ ":" +:+ redis_port.

(** [redis_client.ping()]. *)
Definition redis_ping : M unit :=
  fun w => if redis_up w then (Ok tt, w) else (Raise redis_unreachable, w).

(** [startup_event]: [from_url] is what the client library does with the
    address, accept it or raise; the store the address names is the one of
    the process state.  Any exception of the [try] block leaves the global
    at [None]. *)
Definition startup_event (environ : list (string * string))
    (from_url : string -> outcome unit) (w : world) : world :=
  match from_url (redis_url environ) with
  | Ok _ =>
      match redis_ping (set_client true w) with
      | (Ok _, w') => w'
      | (Raise _, w') => set_client false w'
      end
  | Raise _ => set_client false w
  end.

Record HealthResponse : Type := mkHealthResponse {
  health_status : string;
  health_timestamp : string;
  redis_connected : bool
}.

(** [GET /health]. *)
Definition health_check : M HealthResponse :=
  let* redis_ok :=
    (fun w =>
       if redis_client w then
         try_except (let* _ := redis_ping in ret true) (fun _ => ret false) w
       else ret false w) in
  let* t := now in
  ret {| health_status := if redis_ok then "healthy" else "degraded";
         health_timestamp := isoformat t;
         redis_connected := redis_ok |}.

(** [POST /crawl]. *)
Definition crawl_url (request : CrawlRequest) : M CrawlResponse :=
  perform_crawl request.

End Crawl.

(* ===================================================================== *)
(** ** proxy-service/compressor.py *)
(* ===================================================================== *)

Module Compressor.

(** The module globals, read from the environment when the module is
    imported. *)
Record globals : Type := mkGlobals {
  OPENROUTER_API_KEY : option string;
  OPENROUTER_MODEL : string;
  COMPRESSION_PROMPT : string
}.

Definition getenv (environ : list (string * string)) (name : string)
  : option string := Py.assoc name environ.

Definition getenv_default (environ : list (string * string))
    (name dflt : string) : string :=
  match Py.assoc name environ with Some v => v | None => dflt end.

Definition default_model : string := "google/gemini-2.0-flash-lite-001".
Definition default_prompt : string :=
  "Process the following content according to the user's instruction. Preserve key facts, names, numbers, and actionable information. Output only the result, no preamble.".

(** Importing the module. *)
Definition import_module (environ : list (string * string)) : globals :=
  {| OPENROUTER_API_KEY := getenv environ "OPENROUTER_API_KEY";
     OPENROUTER_MODEL := getenv_default environ "OPENROUTER_MODEL" default_model;
     COMPRESSION_PROMPT :=
       getenv_default environ "COMPRESSION_PROMPT" default_prompt |}.

(** [AsyncOpenAI(base_url, api_key)]. *)
Record client : Type := mkClient { base_url : string; api_key : string }.

Definition get_client (g : globals) : outcome client :=
  match OPENROUTER_API_KEY g with
  | Some k =>
      if String.eqb k EmptyString then
        Raise (ValueError "OPENROUTER_API_KEY environment variable not set")
      else Ok {| base_url := "https://openrouter.ai/api/v1"; api_key := k |}
  | None =>
      Raise (ValueError "OPENROUTER_API_KEY environment variable not set")
  end.

(** One request to [chat.completions.create] and its answer. *)
Record chat_message : Type := mkMessage { role : string; content : string }.

Record request : Type := mkRequest {
  req_client : client;
  req_model : string;
  req_messages : list chat_message
}.

(** [response.choices], each choice by its [message.content], which the
    API may leave [None]. *)
Record response : Type := mkResponse { choices : list (option string) }.

(** The completion API and the requests sent to it, latest first. *)
Record api : Type := mkApi {
  create : request -> outcome response;
  sent : list request
}.

Definition newline : string := String "010"%char EmptyString.

Definition user_message (content_ instruction : string) : string :=
  "Instruction: " +:+ instruction +:+ newline +:+ newline
  +:+ "Content:" +:+ newline +:+ content_.

(** [compress(content, instruction)]: the text returned or the exception,
    and the API afterwards. *)
Definition compress (g : globals) (content_ instruction : string) (a : api)
  : outcome (option string) * api :=
  match get_client g with
  | Raise e => (Raise e, a)
  | Ok c =>
      let rq :=
        {| req_client := c; req_model := OPENROUTER_MODEL g;
           req_messages :=
             [ {| role := "system"; content := COMPRESSION_PROMPT g |};
               {| role := "user";
                  content := user_message content_ instruction |} ] |} in
      let a' := {| create := create a; sent := rq :: sent a |} in
      match create a rq with
      | Raise e => (Raise e, a')
      | Ok r =>
          match choices r with
          | first :: _ => (Ok first, a')
          | [] => (Raise (IndexError "list index out of range"), a')
          end
      end
  end.

Definition default_instruction : string := "summarize briefly".

End Compressor.

(* ===================================================================== *)
(** ** Notions used in the statements *)
(* ===================================================================== *)

Module Spec.

Import Crawl.

(** The keys a link mapping is searched for, in order. *)
Definition link_keys : list string := ["href"; "url"; "link"; "src"]%string.

(** The value of the first key of [keys] that is present in [d]. *)
Fixpoint first_present (keys : list string) (d : list (string * Py.value))
  : option Py.value :=
  match keys with
  | [] => None
  | k :: ks =>
      match Py.assoc k d with
      | Some v => Some v
      | None => first_present ks d
      end
  end.

(** The value of the first key of [keys] whose value in [d] is truthy. *)
Fixpoint first_truthy (keys : list string) (d : list (string * Py.value))
  : option Py.value :=
  match keys with
  | [] => None
  | k :: ks =>
      match Py.assoc k d with
      | Some v => if Py.truthy v then Some v else first_truthy ks d
      | None => first_truthy ks d
      end
  end.

(** The coercion rule for one link, over a way [pick] to choose the
    value of a mapping: a string is kept, a mapping gives the text of the
    chosen value, anything else (a mapping with nothing to choose too)
    gives the text of the whole element. *)
Definition coerce_by (pick : list (string * Py.value) -> option Py.value)
    (link : Py.value) : string :=
  match link with
  | Py.VStr s => s
  | Py.VDict d =>
      match pick d with
      | Some v => Py.str v
      | None => Py.str link
      end
  | _ => Py.str link
  end.

(** The rule as the specification words it, and the rule on truthy
    values. *)
Definition coerce_first_present : Py.value -> string :=
  coerce_by (first_present link_keys).
Definition coerce_first_truthy : Py.value -> string :=
  coerce_by (first_truthy link_keys).

(** The links of a fresh [CrawlResponse], from the items of the executor's
    link collection: the loop of [perform_crawl], its final conversion and
    safety pass, and the validator of the response model. *)
Definition normalized_links (items : list Py.value) : list string :=
  convert_links_to_strings
    (Py.VList (map Py.VStr (final_links_list (map coerce_link items)))).

(** The media rule as the specification words it: [src] before [url]
    before the text of the whole entry, the result a string. *)
Definition media_src_url_text (m : Py.value) : string :=
  match m with
  | Py.VDict d =>
      match Py.assoc "src" d with
      | Some v => Py.str v
      | None =>
          match Py.assoc "url" d with
          | Some v => Py.str v
          | None => Py.str m
          end
      end
  | _ => Py.str m
  end.

(** A digest in the format of the cache key: thirty-two lowercase
    hexadecimal digits. *)
Definition is_hex32 (h : string) : Prop :=
  String.length h = 32%nat /\ Str.forallb_string Str.is_hex_char h = true.

(** The passing of time: the same process with the clock at [t]. *)
Definition set_utcnow (t : datetime) (w : world) : world :=
  {| redis_client := redis_client w; redis_up := redis_up w;
     redis_store := redis_store w; utcnow := t; executor := executor w;
     executor_calls := executor_calls w |}.

(** What the cache lookup of [perform_crawl] finds for a request: a truthy
    value is a hit, a falsy one a miss. *)
Definition cache_lookup (request : CrawlRequest) (w : world) : Py.value :=
  match fst (get_cached_result (request_cache_key request) w) with
  | Ok v => v
  | Raise _ => Py.VNone
  end.

(** A response equal, field by field, to a cached dictionary: the texts, the
    media, the metadata, the screenshot and the timestamp are the stored
    ones, and the links are the stored links coerced. *)
Definition matches_entry (d : list (string * Py.value))
    (resp : CrawlResponse) : Prop :=
  Py.assoc "url" d = Some (Py.VStr (resp_url resp))
  /\ Py.assoc "markdown" d = Some (Py.VStr (resp_markdown resp))
  /\ Py.assoc "html" d = Some (Py.VStr (resp_html resp))
  /\ field_media d = Ok (resp_media resp)
  /\ field_metadata d = Ok (resp_metadata resp)
  /\ field_screenshot d = Ok (resp_screenshot resp)
  /\ Py.assoc "timestamp" d = Some (Py.VStr (resp_timestamp resp))
  /\ forall l, Py.assoc "links" d = Some (Py.VList l) ->
               resp_links resp = map coerce_first_truthy l.

(** The store answering or not from now on. *)
Definition set_up (up : bool) (w : world) : world :=
  {| redis_client := redis_client w; redis_up := up;
     redis_store := redis_store w; utcnow := utcnow w;
     executor := executor w; executor_calls := executor_calls w |}.

(** What happens to a running process: a request to one of its endpoints,
    or a change around it (the clock moves, the store stops or starts
    answering, an entry expires). *)
Inductive event : Type :=
| PostCrawl (request : CrawlRequest)
| PostBatch (request : BatchCrawlRequest)
| GetResult (job_id : string)
| DeleteCache (job_id : string)
| GetHealth
| ClockAt (t : datetime)
| StoreAnswers (up : bool)
| Expires (key : string).

(** The process after one event.  A request body that fails validation is
    answered before its endpoint is called; the tasks of a batch run when
    its response has been sent, so not when the endpoint raised. *)
Definition after (e : event) (w : world) : world :=
  match e with
  | PostCrawl request =>
      if CrawlRequest_valid request then snd (crawl_url request w) else w
  | PostBatch request =>
      if BatchCrawlRequest_valid request then
        match batch_crawl request [] with
        | (Ok _, tasks) => run_background_tasks tasks w
        | (Raise _, _) => w
        end
      else w
  | GetResult job_id => snd (get_result job_id w)
  | DeleteCache job_id => snd (clear_cache job_id w)
  | GetHealth => snd (health_check w)
  | ClockAt t => set_utcnow t w
  | StoreAnswers up => set_up up w
  | Expires key => set_store (delete key (redis_store w)) w
  end.

Definition after_all (es : list event) (w : world) : world :=
  fold_left (fun w e => after e w) es w.

(** Every key of the store has the format of a cache key. *)
Definition keys_tagged (w : world) : Prop :=
  forall k, is_Some (redis_store w !! k) ->
            exists h, k = "crawl:" +:+ h /\ is_hex32 h.

(** The request [batch_crawl] builds for one address of a batch. *)
Definition batch_task (request : BatchCrawlRequest) (u : string)
  : CrawlRequest :=
  {| url := u;
     extraction_strategy := batch_extraction_strategy request;
     chunking_strategy := batch_chunking_strategy request;
     screenshot := batch_screenshot request;
     wait_for := None; timeout := batch_timeout request;
     js_code := None; css_selector := None;
     word_count_threshold := 10 |}.

(** The executor answers a request with a successful result from which a
    valid response is built, at the time of the process. *)
Definition crawlable (w : world) (request : CrawlRequest) : Prop :=
  exists result data resp,
    executor w (url request) (run_config_of request) = Ok result
    /\ res_success result = true
    /\ response_data request result (utcnow w) = Ok data
    /\ CrawlResponse_new data = Ok resp.

(** A dictionary that passes the validation of the response model. *)
Definition valid_entry (d : list (string * Py.value)) : Prop :=
  exists resp, CrawlResponse_new d = Ok resp.

End Spec.

(* ===================================================================== *)
(** ** Concrete inputs *)
(* ===================================================================== *)

Module Ex.

Import Crawl.

Local Open Scope string_scope.

Definition request_a : CrawlRequest :=
  {| url := "http://a/"; extraction_strategy := "auto";
     chunking_strategy := "markdown"; screenshot := false;
     wait_for := None; timeout := 30; js_code := None;
     css_selector := None; word_count_threshold := 10 |}.

(** Same address, strategies and screenshot flag as [request_a], every
    other field different. *)
Definition request_b : CrawlRequest :=
  {| url := "http://a/"; extraction_strategy := "auto";
     chunking_strategy := "markdown"; screenshot := false;
     wait_for := Some "#main"; timeout := 120;
     js_code := Some "window.scrollTo(0, 1)";
     css_selector := Some "article"; word_count_threshold := 1 |}.

(** The link collection of the specification's example. *)
Definition spec_links : list Py.value :=
  [Py.VDict [("href", Py.VStr "http://a")];
   Py.VDict [("url", Py.VStr "http://b")];
   Py.VStr "http://c";
   Py.VDict [("unexpected", Py.VStr "x")]].

(** A link mapping whose first present key holds an empty text. *)
Definition empty_href : Py.value :=
  Py.VDict [("href", Py.VStr EmptyString); ("url", Py.VStr "http://b")].

(** An executor result whose links are the specification's example, with
    one image and some metadata. *)
Definition result_ok : ExecResult :=
  {| res_success := true; res_error_message := EmptyString;
     res_markdown := MarkdownObject (Py.VStr "# hi") (Py.VStr EmptyString);
     res_cleaned_html := Some (Py.VStr "<p>hi</p>");
     res_html := Py.VStr "<html></html>";
     res_links :=
       Py.VDict
         [("internal",
           Py.VList [Py.VDict [("href", Py.VStr "http://a")];
                     Py.VDict [("url", Py.VStr "http://b")]]);
          ("external",
           Py.VList [Py.VStr "http://c";
                     Py.VDict [("unexpected", Py.VStr "x")]])];
     res_media :=
       Py.VDict [("images",
                  Py.VList [Py.VDict [("src", Py.VStr "http://a/i.png")]])];
     res_metadata := Py.VDict [("title", Py.VStr "T")];
     res_screenshot := None |}.

(** An image entry whose [src] is present and [None]. *)
Definition image_src_none : Py.value :=
  Py.VDict [("src", Py.VNone); ("url", Py.VStr "http://a/i.png")].

Definition result_src_none : ExecResult :=
  {| res_success := true; res_error_message := EmptyString;
     res_markdown := MarkdownValue (Py.VStr "# hi");
     res_cleaned_html := None;
     res_html := Py.VStr "<html></html>";
     res_links := Py.VDict [];
     res_media := Py.VDict [("images", Py.VList [image_src_none])];
     res_metadata := Py.VDict [];
     res_screenshot := None |}.

Definition world_with (client up : bool)
    (exec : string -> CrawlerRunConfig -> outcome ExecResult) : world :=
  {| redis_client := client; redis_up := up; redis_store := ∅;
     utcnow := Datetime 2024 3 9 7 5 1 42;
     executor := exec; executor_calls := [] |}.

(** A process with a client and a store that answers. *)
Definition world_ok : world := world_with true true (fun _ _ => Ok result_ok).

(** A process that holds a client while the store does not answer. *)
Definition world_store_down : world :=
  world_with true false (fun _ _ => Ok result_ok).

(** A process whose start-up connection failed. *)
Definition world_no_client : world :=
  world_with false false (fun _ _ => Ok result_ok).

Definition world_src_none : world :=
  world_with true true (fun _ _ => Ok result_src_none).

(** Fifty and fifty-one addresses. *)
Definition numbered_urls (n : nat) : list string :=
  map (fun i => "http://h/" +:+ Str.of_Z (Z.of_nat i)) (seq 0 n).

Definition batch_of (us : list string) : BatchCrawlRequest :=
  {| urls := us; batch_extraction_strategy := "cosine";
     batch_chunking_strategy := "sliding"; batch_screenshot := true;
     batch_timeout := 45 |}.

Definition batch_50 : BatchCrawlRequest := batch_of (numbered_urls 50).
Definition batch_51 : BatchCrawlRequest := batch_of (numbered_urls 51).
Definition batch_1 : BatchCrawlRequest :=
  {| urls := ["http://a/"]; batch_extraction_strategy := "auto";
     batch_chunking_strategy := "markdown"; batch_screenshot := false;
     batch_timeout := 30 |}.

(** A completion API that answers every request with one fixed choice. *)
Definition api_fixed : Compressor.api :=
  {| Compressor.create :=
       fun _ => Ok {| Compressor.choices := [Some "  short text  "] |};
     Compressor.sent := [] |}.

Definition environ_without_key : list (string * string) :=
  [("OPENROUTER_MODEL", "some/model")].

Definition environ_with_key : list (string * string) :=
  [("OPENROUTER_API_KEY", "sk-test")].

(** The response of the first crawl of [request_a] in [world_ok]. *)
Definition response_a : CrawlResponse :=
  {| resp_url := "http://a/"; resp_markdown := "# hi";
     resp_html := "<p>hi</p>";
     resp_links := ["http://a"; "http://b"; "http://c";
                    "{'unexpected': 'x'}"];
     resp_media := [("images", ["http://a/i.png"]); ("videos", [])];
     resp_metadata :=
       [("title", Py.VStr "T"); ("description", Py.VStr EmptyString);
        ("keywords", Py.VList []); ("language", Py.VStr EmptyString)];
     resp_screenshot := None;
     resp_timestamp := "2024-03-09T07:05:01.000042" |}.

(** The process after that crawl, one day and a bit later. *)
Definition later : datetime := Datetime 2024 3 10 9 0 0 0.
Definition world_cached : world :=
  Spec.set_utcnow later (snd (perform_crawl request_a world_ok)).

End Ex.

(* ===================================================================== *)
(** ** Supporting lemmas *)
(* ===================================================================== *)

Section Strings.

Lemma length_app (a b : string) :
  String.length (a +:+ b) = (String.length a + String.length b)%nat.
Proof. induction a as [|c a IH]; simpl; [reflexivity | now rewrite IH]. Qed.

Lemma forallb_string_app (p : ascii -> bool) (a b : string) :
  Str.forallb_string p (a +:+ b)
  = Str.forallb_string p a && Str.forallb_string p b.
Proof.
  induction a as [|c a IH]; simpl; [reflexivity |].
  rewrite IH. now rewrite andb_assoc.
Qed.

Lemma hex_digit_is_hex (n : Z) : Str.is_hex_char (Str.hex_digit n) = true.
Proof.
  unfold Str.hex_digit.
  assert (H : (0 <= n mod 16 < 16)%Z) by (apply Z.mod_pos_bound; lia).
  assert (Hn : (Z.to_nat (n mod 16) < 16)%nat) by lia.
  destruct (Z.to_nat (n mod 16)) as [|k]; [reflexivity |].
  do 15 (destruct k as [|k]; [reflexivity |]). lia.
Qed.

Lemma hex_fixed_length (w : nat) (n : Z) :
  String.length (Str.hex_fixed w n) = w.
Proof.
  revert n. induction w as [|w IH]; intros n; simpl; [reflexivity |].
  rewrite length_app, IH. simpl. lia.
Qed.

Lemma hex_fixed_is_hex (w : nat) (n : Z) :
  Str.forallb_string Str.is_hex_char (Str.hex_fixed w n) = true.
Proof.
  revert n. induction w as [|w IH]; intros n; simpl; [reflexivity |].
  rewrite forallb_string_app, IH. simpl. now rewrite hex_digit_is_hex.
Qed.

Lemma app_empty_r (p : string) : p +:+ EmptyString = p.
Proof.
  induction p as [|c p IH]; [reflexivity |].
  change (String c (p +:+ EmptyString) = String c p). now rewrite IH.
Qed.

Lemma join_empty_cons (p : string) (rest : list string) :
  Str.join EmptyString (p :: rest) = p +:+ Str.join EmptyString rest.
Proof.
  destruct rest as [|q rest]; simpl; [| reflexivity].
  symmetry. apply app_empty_r.
Qed.

Lemma hex_of_bytes_length (l : list Z) :
  String.length (MD5.hex_of_bytes l) = (2 * length l)%nat.
Proof.
  unfold MD5.hex_of_bytes.
  induction l as [|b l IH]; [reflexivity |].
  rewrite map_cons, join_empty_cons, length_app, IH, hex_fixed_length.
  simpl. lia.
Qed.

Lemma hex_of_bytes_is_hex (l : list Z) :
  Str.forallb_string Str.is_hex_char (MD5.hex_of_bytes l) = true.
Proof.
  unfold MD5.hex_of_bytes.
  induction l as [|b l IH]; [reflexivity |].
  rewrite map_cons, join_empty_cons, forallb_string_app, IH.
  now rewrite hex_fixed_is_hex.
Qed.

Lemma bytes_le_length (w : nat) (n : Z) : length (MD5.bytes_le w n) = w.
Proof.
  revert n. induction w as [|w IH]; intros n; simpl; [reflexivity |].
  now rewrite IH.
Qed.

Lemma hexdigest_is_hex32 (data : string) : Spec.is_hex32 (MD5.hexdigest data).
Proof.
  unfold Spec.is_hex32, MD5.hexdigest. split.
  - rewrite hex_of_bytes_length. unfold MD5.digest_bytes.
    repeat rewrite List.length_app. now rewrite !bytes_le_length.
  - apply hex_of_bytes_is_hex.
Qed.

End Strings.

Section Links.

Import Crawl.

Lemma link_url_first_truthy (d : list (string * Py.value)) :
  Spec.first_truthy Spec.link_keys d
  = if Py.truthy (link_url d) then Some (link_url d) else None.
Proof.
  unfold link_url, Py.or_, Py.get, Spec.link_keys. simpl.
  repeat match goal with
    | |- context [match Py.assoc ?k d with _ => _ end] =>
        destruct (Py.assoc k d); simpl
    | |- context [if Py.truthy ?v then _ else _] =>
        destruct (Py.truthy v) eqn:?; simpl
    end; try reflexivity; congruence.
Qed.

Lemma coerce_link_first_truthy (link : Py.value) :
  coerce_link link = Spec.coerce_first_truthy link.
Proof.
  destruct link as [| b | n | s | l | d]; try reflexivity.
  unfold coerce_link, Spec.coerce_first_truthy, Spec.coerce_by.
  rewrite link_url_first_truthy.
  now destruct (Py.truthy (link_url d)).
Qed.

Lemma recoerce_link_first_truthy (link : Py.value) :
  recoerce_link link = Spec.coerce_first_truthy link.
Proof.
  rewrite <- coerce_link_first_truthy. now destruct link.
Qed.

Lemma safety_pass_id (xs : list string) : safety_pass xs = xs.
Proof. unfold safety_pass. induction xs; simpl; [|f_equal]; auto. Qed.

Lemma final_links_list_id (xs : list string) : final_links_list xs = xs.
Proof.
  unfold final_links_list. rewrite safety_pass_id.
  induction xs; simpl; [|f_equal]; auto.
Qed.

Lemma convert_strings_id (xs : list string) :
  convert_links_to_strings (Py.VList (map Py.VStr xs)) = xs.
Proof. simpl. induction xs; simpl; [|f_equal]; auto. Qed.

Lemma normalized_links_map (items : list Py.value) :
  Spec.normalized_links items = map coerce_link items.
Proof.
  unfold Spec.normalized_links.
  now rewrite final_links_list_id, convert_strings_id.
Qed.

End Links.

(** C2. Two crawl requests with the same address, extraction strategy,
    chunking strategy and screenshot flag get the same cache key, whatever
    their timeout, wait-for selector, injected script, CSS selector and
    word-count threshold; and the key of any address and parameters is the
    tag [crawl:] followed by thirty-two lowercase hexadecimal digits. *)
Theorem C2_cache_key_of_four_fields (r1 r2 : Crawl.CrawlRequest) :
  Crawl.url r1 = Crawl.url r2 ->
  Crawl.extraction_strategy r1 = Crawl.extraction_strategy r2 ->
  Crawl.chunking_strategy r1 = Crawl.chunking_strategy r2 ->
  Crawl.screenshot r1 = Crawl.screenshot r2 ->
  Crawl.request_cache_key r1 = Crawl.request_cache_key r2
  /\ (forall (u : string) (params : Py.value),
        exists h, Crawl.generate_cache_key u params = "crawl:" +:+ h
                  /\ Spec.is_hex32 h).
Proof.
  intros Hu He Hc Hs. split.
  - unfold Crawl.request_cache_key. now rewrite Hu, He, Hc, Hs.
  - intros u params. eexists. split; [reflexivity |].
    apply hexdigest_is_hex32.
Qed.

Lemma C2_cache_key_of_four_fields_witness :
  Crawl.request_cache_key Ex.request_a = Crawl.request_cache_key Ex.request_b
  /\ (forall (u : string) (params : Py.value),
        exists h, Crawl.generate_cache_key u params = "crawl:" +:+ h
                  /\ Spec.is_hex32 h).
Proof.
  apply (C2_cache_key_of_four_fields Ex.request_a Ex.request_b);
    reflexivity.
Defined.

(** C3, as the claim words it, fails: a mapping whose [href] is present
    but empty does not yield the value of its first present key. *)
Lemma C3_first_present_key_counterexample :
  ~ (forall items : list Py.value,
       Spec.normalized_links items = map Spec.coerce_first_present items).
Proof.
  intros H. specialize (H [Ex.empty_href]). vm_compute in H. discriminate H.
Qed.

(** C3, amended. Every element of the link collection is coerced, none is
    dropped and nothing is raised: a string is kept; a mapping yields the
    text of the first value among [href], [url], [link], [src] that is
    truthy; a mapping with no such value and any other shape yield the text
    of the whole element.  The links of a cached entry are coerced by the
    same rule, and the specification's example normalises as it says. *)
Theorem C3_links_coerced_by_first_truthy_value (items : list Py.value) :
  Spec.normalized_links items = map Spec.coerce_first_truthy items
  /\ length (Spec.normalized_links items) = length items
  /\ Crawl.cached_links items = map Spec.coerce_first_truthy items
  /\ Spec.normalized_links Ex.spec_links
     = ["http://a"; "http://b"; "http://c"; "{'unexpected': 'x'}"]%string.
Proof.
  assert (H : Spec.normalized_links items
              = map Spec.coerce_first_truthy items).
  { rewrite normalized_links_map. apply map_ext. intros a.
    apply coerce_link_first_truthy. }
  repeat split.
  - exact H.
  - rewrite H. apply length_map.
  - unfold Crawl.cached_links. rewrite safety_pass_id.
    apply map_ext. intros a. apply recoerce_link_first_truthy.
Qed.

(** C5 fails on the code: an image mapping whose [src] is present but is
    no string is appended as it is, where the claim has the text of [src].
    The entry written to the cache then holds a value that is no string,
    and building the response raises. *)
Theorem C5_media_src_kept_uncoerced :
  Crawl.coerce_media Ex.image_src_none = Py.VNone
  /\ Py.is_str (Crawl.coerce_media Ex.image_src_none) = false
  /\ Spec.media_src_url_text Ex.image_src_none = "None"%string
  /\ Crawl.media_urls Ex.result_src_none "images" = Ok [Py.VNone]
  /\ (let (out, w) := Crawl.perform_crawl Ex.request_a Ex.world_src_none in
      is_ok out = false
      /\ exists ttl entry,
           Crawl.redis_store w !! Crawl.request_cache_key Ex.request_a
           = Some (ttl, Crawl.Json (Py.VDict entry))
           /\ Py.assoc "media" entry
              = Some (Py.VDict [("images", Py.VList [Py.VNone]);
                                ("videos", Py.VList [])]%string)).
Proof.
  do 4 (split; [reflexivity |]).
  vm_compute. split; [reflexivity |]. do 2 eexists. split; reflexivity.
Qed.

Section Cache.

Import Crawl.

Lemma get_cached_result_total (key : string) (w : world) :
  exists v, get_cached_result key w = (Ok v, w).
Proof.
  unfold get_cached_result, try_except, bind, redis_get, ret, raise.
  destruct (redis_client w); simpl; [| eauto].
  destruct (redis_up w); simpl; [| eauto].
  destruct (snd <$> redis_store w !! key) as [[v | raw] |]; simpl; eauto.
  destruct (String.eqb raw EmptyString); eauto.
Qed.

Lemma get_cached_result_down (key : string) (w : world) :
  redis_client w = false \/ redis_up w = false ->
  get_cached_result key w = (Ok Py.VNone, w).
Proof.
  unfold get_cached_result, try_except, bind, redis_get, ret.
  intros [H | H]; rewrite H; simpl; [reflexivity |].
  now destruct (redis_client w).
Qed.

Lemma set_cached_result_down (key : string) (v : Py.value) (ttl : Z)
    (w : world) :
  redis_client w = false \/ redis_up w = false ->
  set_cached_result key v ttl w = (Ok tt, w).
Proof.
  unfold set_cached_result, try_except, redis_setex, ret.
  intros [H | H]; rewrite H; simpl; [reflexivity |].
  now destruct (redis_client w).
Qed.

End Cache.

(** C6, as the claim words it, fails: with a client held and the store not
    answering, delete raises HTTP 500, not 503. *)
Lemma C6_delete_503_counterexample :
  ~ (forall (w : Crawl.world) (job_id : string),
       Crawl.redis_up w = false ->
       exists detail,
         fst (Crawl.clear_cache job_id w)
         = Raise (HTTPException 503 detail)).
Proof.
  intros H.
  destruct (H Ex.world_store_down "j"%string eq_refl) as [detail Hd].
  vm_compute in Hd. discriminate Hd.
Qed.

(** C6, amended. When the process holds no cache client or the store does
    not answer: a cache get returns a miss and a cache set does nothing,
    neither raises, and both leave the state as it is; a cache delete
    raises, HTTP 503 ("Cache service unavailable") when no client is held,
    and HTTP 500 carrying the fault's message when a client is held and the
    store does not answer. *)
Theorem C6_cache_unavailable (w : Crawl.world) (key job_id : string)
    (result : Py.value) (ttl : Z) :
  Crawl.redis_client w = false \/ Crawl.redis_up w = false ->
  Crawl.get_cached_result key w = (Ok Py.VNone, w)
  /\ Crawl.set_cached_result key result ttl w = (Ok tt, w)
  /\ Crawl.clear_cache job_id w
     = (Raise (if Crawl.redis_client w
               then HTTPException 500 (exn_str Crawl.redis_unreachable)
               else HTTPException 503 "Cache service unavailable"), w).
Proof.
  intros H. split; [| split].
  - now apply get_cached_result_down.
  - now apply set_cached_result_down.
  - unfold Crawl.clear_cache, Crawl.try_except, Crawl.bind,
      Crawl.redis_delete, Crawl.raise.
    destruct (Crawl.redis_client w) eqn:Hc; simpl; [| reflexivity].
    destruct H as [H | H]; [discriminate H |]. now rewrite H.
Qed.

Lemma C6_cache_unavailable_witness :
  Crawl.get_cached_result "k" Ex.world_store_down
  = (Ok Py.VNone, Ex.world_store_down)
  /\ Crawl.set_cached_result "k" Py.VNone 60 Ex.world_store_down
     = (Ok tt, Ex.world_store_down)
  /\ Crawl.clear_cache "j" Ex.world_store_down
     = (Raise (HTTPException 500 (exn_str Crawl.redis_unreachable)),
        Ex.world_store_down).
Proof.
  apply (C6_cache_unavailable Ex.world_store_down "k" "j" Py.VNone 60).
  right. reflexivity.
Defined.

Section Batch.

Import Crawl.

(** The request [batch_crawl] builds for one address. *)
Lemma CrawlRequest_new_valid (request : BatchCrawlRequest) (u : string) :
  BatchCrawlRequest_valid request = true ->
  CrawlRequest_new u (batch_extraction_strategy request)
    (batch_chunking_strategy request) (batch_screenshot request)
    (batch_timeout request)
  = Ok {| url := u;
          extraction_strategy := batch_extraction_strategy request;
          chunking_strategy := batch_chunking_strategy request;
          screenshot := batch_screenshot request;
          wait_for := None; timeout := batch_timeout request;
          js_code := None; css_selector := None;
          word_count_threshold := 10 |}.
Proof.
  intros H. unfold CrawlRequest_new, CrawlRequest_valid. simpl.
  unfold BatchCrawlRequest_valid in H. rewrite H. reflexivity.
Qed.

Lemma batch_loop_valid (request : BatchCrawlRequest) (us : list string) :
  BatchCrawlRequest_valid request = true ->
  forall job_ids tasks,
  exists new_jobs new_tasks,
    batch_loop request us job_ids tasks
    = (Ok (job_ids ++ new_jobs), tasks ++ new_tasks)
    /\ map fst new_jobs = us
    /\ map url new_tasks = us
    /\ (forall j, In j new_jobs ->
          snd j = generate_cache_key (fst j)
                    (cache_params (batch_extraction_strategy request)
                       (batch_chunking_strategy request)
                       (batch_screenshot request)))
    /\ (forall t, In t new_tasks ->
          extraction_strategy t = batch_extraction_strategy request
          /\ chunking_strategy t = batch_chunking_strategy request
          /\ screenshot t = batch_screenshot request
          /\ timeout t = batch_timeout request
          /\ wait_for t = None /\ js_code t = None /\ css_selector t = None
          /\ word_count_threshold t = 10%Z).
Proof.
  intros Hv. induction us as [|u us IH]; intros job_ids tasks.
  - exists [], []. simpl. rewrite !app_nil_r.
    do 3 (split; [reflexivity |]). split; intros ? [].
  - simpl. rewrite (CrawlRequest_new_valid request u Hv).
    destruct (IH (job_ids ++ [(u, generate_cache_key u
                     (cache_params (batch_extraction_strategy request)
                        (batch_chunking_strategy request)
                        (batch_screenshot request)))])
                 (tasks ++ [{| url := u;
          extraction_strategy := batch_extraction_strategy request;
          chunking_strategy := batch_chunking_strategy request;
          screenshot := batch_screenshot request;
          wait_for := None; timeout := batch_timeout request;
          js_code := None; css_selector := None;
          word_count_threshold := 10 |}]))
      as (nj & nt & Heq & Hj & Ht & Hkeys & Hdef).
    eexists (_ :: nj), (_ :: nt). rewrite Heq, <- !app_assoc. simpl.
    split; [reflexivity |]. split; [now rewrite Hj |].
    split; [now rewrite Ht |]. split.
    + intros j [<- | Hin]; [reflexivity | now apply Hkeys].
    + intros t [<- | Hin]; [simpl; tauto | now apply Hdef].
Qed.

End Batch.

(** C8. A valid batch of at most fifty addresses, so one of exactly fifty,
    is accepted: the answer lists one job per address, in order, and one
    crawl per address is added to the background tasks.  A batch of more
    than fifty is rejected with HTTP 400, no task is added and no job
    identifier is returned; the dispatcher itself touches neither the cache
    nor the executor. *)
Theorem C8_batch_of_fifty_accepted_more_rejected
    (request : Crawl.BatchCrawlRequest) (tasks : list Crawl.CrawlRequest) :
  Crawl.BatchCrawlRequest_valid request = true ->
  (length (Crawl.urls request) <= 50 ->
   exists resp new_tasks,
     Crawl.batch_crawl request tasks = (Ok resp, tasks ++ new_tasks)
     /\ Crawl.total_urls resp = length (Crawl.urls request)
     /\ length (Crawl.jobs resp) = length (Crawl.urls request)
     /\ map fst (Crawl.jobs resp) = Crawl.urls request
     /\ length new_tasks = length (Crawl.urls request)
     /\ map Crawl.url new_tasks = Crawl.urls request)
  /\ (50 < length (Crawl.urls request) ->
      Crawl.batch_crawl request tasks
      = (Raise (HTTPException 400 "Maximum 50 URLs allowed per batch"),
         tasks)).
Proof.
  intros Hv. split; intros Hlen; unfold Crawl.batch_crawl.
  - destruct (Nat.ltb_spec 50 (length (Crawl.urls request))) as [|_];
      [lia |].
    destruct (batch_loop_valid request (Crawl.urls request) Hv [] tasks)
      as (nj & nt & Heq & Hj & Ht & _ & _).
    rewrite Heq. simpl. exists
      {| Crawl.status := "processing";
         Crawl.total_urls := length (Crawl.urls request);
         Crawl.jobs := nj;
         Crawl.message := "Batch crawl initiated. Use job_id to retrieve results from cache." |}, nt.
    simpl. split; [reflexivity |]. split; [reflexivity |].
    split; [now rewrite <- Hj, length_map |].
    split; [exact Hj |].
    split; [now rewrite <- Ht, length_map | exact Ht].
  - destruct (Nat.ltb_spec 50 (length (Crawl.urls request))) as [_|];
      [reflexivity | lia].
Qed.

Lemma C8_batch_of_fifty_accepted_more_rejected_witness :
  (exists resp new_tasks,
     Crawl.batch_crawl Ex.batch_50 [] = (Ok resp, [] ++ new_tasks)
     /\ Crawl.total_urls resp = length (Crawl.urls Ex.batch_50)
     /\ length (Crawl.jobs resp) = length (Crawl.urls Ex.batch_50)
     /\ map fst (Crawl.jobs resp) = Crawl.urls Ex.batch_50
     /\ length new_tasks = length (Crawl.urls Ex.batch_50)
     /\ map Crawl.url new_tasks = Crawl.urls Ex.batch_50)
  /\ Crawl.batch_crawl Ex.batch_51 []
     = (Raise (HTTPException 400 "Maximum 50 URLs allowed per batch"), []).
Proof.
  split.
  - apply (C8_batch_of_fifty_accepted_more_rejected Ex.batch_50 []);
      [reflexivity | vm_compute; lia].
  - apply (C8_batch_of_fifty_accepted_more_rejected Ex.batch_51 []);
      [reflexivity | vm_compute; lia].
Defined.

(** C10. Every crawl a valid, accepted batch schedules carries the batch's
    strategies, screenshot flag and timeout, a word-count threshold of 10
    and no wait-for selector, injected script or CSS selector, and the
    executor configuration built for it has the same threshold and
    absences. *)
Theorem C10_batch_tasks_take_defaults
    (request : Crawl.BatchCrawlRequest) (tasks : list Crawl.CrawlRequest) :
  Crawl.BatchCrawlRequest_valid request = true ->
  length (Crawl.urls request) <= 50 ->
  exists resp new_tasks,
    Crawl.batch_crawl request tasks = (Ok resp, tasks ++ new_tasks)
    /\ map Crawl.url new_tasks = Crawl.urls request
    /\ forall t, In t new_tasks ->
         Crawl.extraction_strategy t = Crawl.batch_extraction_strategy request
         /\ Crawl.chunking_strategy t = Crawl.batch_chunking_strategy request
         /\ Crawl.screenshot t = Crawl.batch_screenshot request
         /\ Crawl.timeout t = Crawl.batch_timeout request
         /\ Crawl.word_count_threshold t = 10%Z
         /\ Crawl.wait_for t = None
         /\ Crawl.js_code t = None
         /\ Crawl.css_selector t = None
         /\ Crawl.cfg_word_count_threshold (Crawl.run_config_of t) = 10%Z
         /\ Crawl.cfg_wait_for (Crawl.run_config_of t) = None
         /\ Crawl.cfg_js_code (Crawl.run_config_of t) = None
         /\ Crawl.cfg_css_selector (Crawl.run_config_of t) = None.
Proof.
  intros Hv Hlen. unfold Crawl.batch_crawl.
  destruct (Nat.ltb_spec 50 (length (Crawl.urls request))) as [|_]; [lia |].
  destruct (batch_loop_valid request (Crawl.urls request) Hv [] tasks)
    as (nj & nt & Heq & _ & Ht & _ & Hdef).
  rewrite Heq. simpl. do 2 eexists. split; [reflexivity |].
  split; [exact Ht |]. intros t Hin.
  destruct (Hdef t Hin) as (He & Hc & Hs & Hto & Hw & Hjs & Hcss & Hwc).
  unfold Crawl.run_config_of. simpl. rewrite Hw, Hjs, Hcss, Hwc. tauto.
Qed.

Lemma C10_batch_tasks_take_defaults_witness :
  exists resp new_tasks,
    Crawl.batch_crawl Ex.batch_50 [] = (Ok resp, [] ++ new_tasks)
    /\ map Crawl.url new_tasks = Crawl.urls Ex.batch_50
    /\ forall t, In t new_tasks ->
         Crawl.extraction_strategy t = "cosine"%string
         /\ Crawl.chunking_strategy t = "sliding"%string
         /\ Crawl.screenshot t = true
         /\ Crawl.timeout t = 45%Z
         /\ Crawl.word_count_threshold t = 10%Z
         /\ Crawl.wait_for t = None
         /\ Crawl.js_code t = None
         /\ Crawl.css_selector t = None
         /\ Crawl.cfg_word_count_threshold (Crawl.run_config_of t) = 10%Z
         /\ Crawl.cfg_wait_for (Crawl.run_config_of t) = None
         /\ Crawl.cfg_js_code (Crawl.run_config_of t) = None
         /\ Crawl.cfg_css_selector (Crawl.run_config_of t) = None.
Proof.
  apply (C10_batch_tasks_take_defaults Ex.batch_50 []);
    [reflexivity | vm_compute; lia].
Defined.

(** C9. With no credential configured, unset or empty, [compress] raises
    the configuration error and sends nothing to the completion API;
    importing the module with the variable unset raises nothing, the error
    comes at the call.  With a credential, one request is sent and the text
    of the first choice of the answer is returned as it is. *)
Theorem C9_compress_needs_credential_returns_verbatim
    (g : Compressor.globals) (content_ instruction : string)
    (a : Compressor.api) :
  (Compressor.OPENROUTER_API_KEY g = None
   \/ Compressor.OPENROUTER_API_KEY g = Some EmptyString ->
   Compressor.compress g content_ instruction a
   = (Raise (ValueError "OPENROUTER_API_KEY environment variable not set"),
      a))
  /\ (forall environ,
        Py.assoc "OPENROUTER_API_KEY" environ = None ->
        Compressor.compress (Compressor.import_module environ)
          content_ instruction a
        = (Raise
             (ValueError "OPENROUTER_API_KEY environment variable not set"),
           a))
  /\ (forall k r first rest,
        Compressor.OPENROUTER_API_KEY g = Some k ->
        k <> EmptyString ->
        let rq :=
          {| Compressor.req_client :=
               {| Compressor.base_url := "https://openrouter.ai/api/v1";
                  Compressor.api_key := k |};
             Compressor.req_model := Compressor.OPENROUTER_MODEL g;
             Compressor.req_messages :=
               [ {| Compressor.role := "system";
                    Compressor.content := Compressor.COMPRESSION_PROMPT g |};
                 {| Compressor.role := "user";
                    Compressor.content :=
                      Compressor.user_message content_ instruction |} ] |} in
        Compressor.create a rq = Ok r ->
        Compressor.choices r = first :: rest ->
        Compressor.compress g content_ instruction a
        = (Ok first,
           {| Compressor.create := Compressor.create a;
              Compressor.sent := rq :: Compressor.sent a |})).
Proof.
  split; [| split].
  - unfold Compressor.compress, Compressor.get_client.
    intros [H | H]; rewrite H; reflexivity.
  - intros environ H.
    unfold Compressor.compress, Compressor.get_client,
      Compressor.import_module, Compressor.getenv. simpl.
    now rewrite H.
  - intros k r first rest Hk Hne rq Hr Hc.
    unfold Compressor.compress, Compressor.get_client. rewrite Hk.
    destruct (String.eqb_spec k EmptyString) as [-> | _]; [easy |].
    fold rq. rewrite Hr, Hc. reflexivity.
Qed.

Lemma C9_compress_needs_credential_returns_verbatim_witness :
  Compressor.compress (Compressor.import_module Ex.environ_without_key)
    "some long text" Compressor.default_instruction Ex.api_fixed
  = (Raise (ValueError "OPENROUTER_API_KEY environment variable not set"),
     Ex.api_fixed)
  /\ fst (Compressor.compress
            (Compressor.import_module Ex.environ_with_key)
            "some long text" Compressor.default_instruction Ex.api_fixed)
     = Ok (Some "  short text  "%string).
Proof.
  split.
  - destruct (C9_compress_needs_credential_returns_verbatim
                (Compressor.import_module Ex.environ_without_key)
                "some long text" Compressor.default_instruction Ex.api_fixed)
      as (H & _ & _).
    apply H. left. reflexivity.
  - destruct (C9_compress_needs_credential_returns_verbatim
                (Compressor.import_module Ex.environ_with_key)
                "some long text" Compressor.default_instruction Ex.api_fixed)
      as (_ & _ & H).
    rewrite (H "sk-test"%string
               {| Compressor.choices := [Some "  short text  "%string] |}
               (Some "  short text  "%string) []);
      [reflexivity | reflexivity | discriminate | reflexivity | reflexivity].
Defined.

Section Response.

Import Crawl.

Lemma CrawlResponse_new_inv (d : list (string * Py.value))
    (resp : CrawlResponse) :
  CrawlResponse_new d = Ok resp ->
  field_str "url" d = Ok (resp_url resp)
  /\ field_str "markdown" d = Ok (resp_markdown resp)
  /\ field_str "html" d = Ok (resp_html resp)
  /\ field_links d = Ok (resp_links resp)
  /\ field_media d = Ok (resp_media resp)
  /\ field_metadata d = Ok (resp_metadata resp)
  /\ field_screenshot d = Ok (resp_screenshot resp)
  /\ field_str "timestamp" d = Ok (resp_timestamp resp).
Proof.
  unfold CrawlResponse_new.
  destruct (field_str "url" d); [| discriminate].
  destruct (field_str "markdown" d); [| discriminate].
  destruct (field_str "html" d); [| discriminate].
  destruct (field_links d); [| discriminate].
  destruct (field_media d); [| discriminate].
  destruct (field_metadata d); [| discriminate].
  destruct (field_screenshot d); [| discriminate].
  destruct (field_str "timestamp" d); [| discriminate].
  simpl. intros [= <-]. simpl. tauto.
Qed.

Lemma field_str_inv (name : string) (d : list (string * Py.value))
    (s : string) :
  field_str name d = Ok s -> Py.assoc name d = Some (Py.VStr s).
Proof.
  unfold field_str. destruct (Py.assoc name d) as [[]|]; try discriminate.
  now intros [= ->].
Qed.

(** The explicit dictionary behind a successful [response_data]. *)
Lemma response_data_inv (request : CrawlRequest) (r : ExecResult)
    (t : datetime) (data : list (string * Py.value)) :
  response_data request r t = Ok data ->
  exists links image_urls video_urls,
    all_links r = Ok links
    /\ media_urls r "images" = Ok image_urls
    /\ media_urls r "videos" = Ok video_urls
    /\ data
       = [("url", Py.VStr (url request));
          ("markdown", markdown_content (res_markdown r));
          ("html", html_content r);
          ("links", Py.VList (map Py.VStr (final_links_list links)));
          ("media", Py.VDict [("images", Py.VList image_urls);
                              ("videos", Py.VList video_urls)]);
          ("metadata", metadata_of r);
          ("screenshot", screenshot_of request r);
          ("timestamp", Py.VStr (isoformat t))]%string.
Proof.
  unfold response_data.
  destruct (all_links r) as [links |]; [| discriminate].
  destruct (media_urls r "images") as [im |]; [| discriminate].
  destruct (media_urls r "videos") as [vi |]; [| discriminate].
  simpl. intros [= <-]. now exists links, im, vi.
Qed.

Lemma all_links_partitions (r : ExecResult) (d : list (string * Py.value))
    (li le : list Py.value) :
  res_links r = Py.VDict d ->
  Py.assoc "internal" d = Some (Py.VList li) ->
  Py.assoc "external" d = Some (Py.VList le) ->
  all_links r = Ok (map coerce_link li ++ map coerce_link le).
Proof.
  intros Hd Hi He.
  unfold all_links, link_partition, as_dict, Py.get_default, Py.or_.
  rewrite Hd, Hi, He.
  destruct li, le; simpl; now rewrite ?map_app.
Qed.

End Response.

(** C7. When the executor's links hold an internal and an external list,
    the normalised links are the coerced internal links, in their order,
    followed by the coerced external links, in theirs: in the list the
    normaliser builds and in the links of the response made from it. *)
Theorem C7_internal_links_then_external
    (r : Crawl.ExecResult) (d : list (string * Py.value))
    (li le : list Py.value) :
  Crawl.res_links r = Py.VDict d ->
  Py.assoc "internal" d = Some (Py.VList li) ->
  Py.assoc "external" d = Some (Py.VList le) ->
  Crawl.all_links r
  = Ok (map Spec.coerce_first_truthy li ++ map Spec.coerce_first_truthy le)
  /\ forall request t data resp,
       Crawl.response_data request r t = Ok data ->
       Crawl.CrawlResponse_new data = Ok resp ->
       Crawl.resp_links resp
       = map Spec.coerce_first_truthy li ++ map Spec.coerce_first_truthy le.
Proof.
  intros Hd Hi He.
  assert (Hall : Crawl.all_links r
                 = Ok (map Spec.coerce_first_truthy li
                       ++ map Spec.coerce_first_truthy le)).
  { rewrite (all_links_partitions r d li le Hd Hi He).
    do 2 f_equal; apply map_ext; intros a; apply coerce_link_first_truthy. }
  split; [exact Hall |].
  intros request t data resp Hdata Hresp.
  destruct (response_data_inv request r t data Hdata)
    as (links & im & vi & Hl & _ & _ & ->).
  rewrite Hall in Hl. injection Hl as <-.
  destruct (CrawlResponse_new_inv _ resp Hresp) as (_ & _ & _ & Hlinks & _).
  change (Ok (Crawl.convert_links_to_strings
                (Py.VList
                   (map Py.VStr
                      (Crawl.final_links_list
                         (map Spec.coerce_first_truthy li
                          ++ map Spec.coerce_first_truthy le)))))
          = Ok (Crawl.resp_links resp)) in Hlinks.
  rewrite final_links_list_id, convert_strings_id in Hlinks.
  now injection Hlinks as <-.
Qed.

Lemma C7_internal_links_then_external_witness :
  Crawl.all_links Ex.result_ok
  = Ok ["http://a"; "http://b"; "http://c"; "{'unexpected': 'x'}"]%string
  /\ forall request t data resp,
       Crawl.response_data request Ex.result_ok t = Ok data ->
       Crawl.CrawlResponse_new data = Ok resp ->
       Crawl.resp_links resp
       = ["http://a"; "http://b"; "http://c"; "{'unexpected': 'x'}"]%string.
Proof.
  apply (C7_internal_links_then_external Ex.result_ok
           [("internal",
             Py.VList [Py.VDict [("href", Py.VStr "http://a")];
                       Py.VDict [("url", Py.VStr "http://b")]]);
            ("external",
             Py.VList [Py.VStr "http://c";
                       Py.VDict [("unexpected", Py.VStr "x")]])]%string
           [Py.VDict [("href", Py.VStr "http://a")];
            Py.VDict [("url", Py.VStr "http://b")]]%string
           [Py.VStr "http://c";
            Py.VDict [("unexpected", Py.VStr "x")]]%string);
    reflexivity.
Defined.

(** C1 fails on the code. The job identifier [batch_crawl] returns is the
    cache key of the address and the shared parameters, and the background
    crawl stores its result under that key; but [get_result] looks up the
    identifier with a second [crawl:] tag in front, so the returned
    identifier is answered with HTTP 404 while the entry is in the store.
    Only the identifier without its tag finds it. *)
Theorem C1_get_result_misses_returned_job_id :
  let job_id :=
    Crawl.generate_cache_key "http://a/"
      (Crawl.cache_params "auto" "markdown" false) in
  let w :=
    Crawl.run_background_tasks (snd (Crawl.batch_crawl Ex.batch_1 []))
      Ex.world_ok in
  (exists resp,
     fst (Crawl.batch_crawl Ex.batch_1 []) = Ok resp
     /\ Crawl.jobs resp = [("http://a/"%string, job_id)])
  /\ job_id = "crawl:8bca1c0cdaa46bb846dd1c19e72ca0aa"%string
  /\ (exists entry,
        Crawl.redis_store w !! job_id
        = Some (Crawl.default_ttl, Crawl.Json entry)
        /\ fst (Crawl.get_result "8bca1c0cdaa46bb846dd1c19e72ca0aa" w)
           = Ok entry)
  /\ Crawl.redis_store w !! ("crawl:" +:+ job_id) = None
  /\ fst (Crawl.get_result job_id w)
     = Raise (HTTPException 404 "Result not found or expired").
Proof.
  vm_compute.
  split; [eexists; split; reflexivity |].
  split; [reflexivity |].
  split; [eexists; split; reflexivity |].
  split; reflexivity.
Qed.

Section Jobs.

Import Crawl.

(** The part of C1 that holds for every valid batch: each job identifier
    is the cache key under which the crawl scheduled for its address
    stores its result. *)
Lemma batch_job_ids_are_cache_keys (request : BatchCrawlRequest)
    (tasks : list CrawlRequest) :
  BatchCrawlRequest_valid request = true ->
  length (urls request) <= 50 ->
  exists resp new_tasks,
    batch_crawl request tasks = (Ok resp, tasks ++ new_tasks)
    /\ map fst (jobs resp) = map url new_tasks
    /\ (forall j, In j (jobs resp) ->
          snd j = generate_cache_key (fst j)
                    (cache_params (batch_extraction_strategy request)
                       (batch_chunking_strategy request)
                       (batch_screenshot request)))
    /\ (forall t, In t new_tasks ->
          request_cache_key t
          = generate_cache_key (url t)
              (cache_params (batch_extraction_strategy request)
                 (batch_chunking_strategy request)
                 (batch_screenshot request))).
Proof.
  intros Hv Hlen. unfold batch_crawl.
  destruct (Nat.ltb_spec 50 (length (urls request))) as [|_]; [lia |].
  destruct (batch_loop_valid request (urls request) Hv [] tasks)
    as (nj & nt & Heq & Hj & Ht & Hkeys & Hdef).
  rewrite Heq. simpl. do 2 eexists. split; [reflexivity |]. simpl.
  split; [now rewrite Hj, Ht |]. split; [exact Hkeys |].
  intros t Hin. destruct (Hdef t Hin) as (He & Hc & Hs & _).
  unfold request_cache_key. now rewrite He, Hc, Hs.
Qed.

(** [get_result] reads the store at the identifier with the tag added. *)
Lemma get_result_adds_tag (job_id : string) (w : world) :
  get_result job_id w
  = match get_cached_result ("crawl:" +:+ job_id) w with
    | (Ok v, w') =>
        if Py.truthy v then (Ok v, w')
        else (Raise (HTTPException 404 "Result not found or expired"), w')
    | (Raise e, w') => (Raise e, w')
    end.
Proof.
  unfold get_result, bind.
  destruct (get_cached_result ("crawl:" +:+ job_id) w) as [[v | e] w'];
    [| reflexivity].
  now destruct (Py.truthy v).
Qed.

End Jobs.

Section Orchestrator.

Import Crawl.

Lemma perform_crawl_unfold (request : CrawlRequest) (w : world)
    (v : Py.value) :
  get_cached_result (request_cache_key request) w = (Ok v, w) ->
  perform_crawl request w
  = if Py.truthy v then (cache_hit v, w)
    else try_except (crawl_fresh request (request_cache_key request))
           (fun e => raise (HTTPException 500 (exn_str e))) w.
Proof.
  intros H. unfold perform_crawl, bind. rewrite H.
  now destruct (Py.truthy v).
Qed.

Lemma cache_lookup_spec (request : CrawlRequest) (w : world) :
  get_cached_result (request_cache_key request) w
  = (Ok (Spec.cache_lookup request w), w).
Proof.
  unfold Spec.cache_lookup.
  destruct (get_cached_result_total (request_cache_key request) w)
    as [v Hv].
  now rewrite Hv.
Qed.

Lemma get_cached_result_set_utcnow (key : string) (t : datetime)
    (w : world) (v : Py.value) :
  get_cached_result key w = (Ok v, w) ->
  get_cached_result key (Spec.set_utcnow t w) = (Ok v, Spec.set_utcnow t w).
Proof.
  unfold get_cached_result, try_except, bind, redis_get, ret, raise. simpl.
  destruct (redis_client w); simpl; [| now intros [= <-]].
  destruct (redis_up w); simpl; [| now intros [= <-]].
  destruct (snd <$> redis_store w !! key) as [[x | raw] |]; simpl;
    try (now intros [= <-]).
  destruct (String.eqb raw EmptyString); now intros [= <-].
Qed.

(** What a successful run of the cache-miss branch went through. *)
Lemma crawl_fresh_inv (request : CrawlRequest) (key : string)
    (w w' : world) (resp : CrawlResponse) :
  crawl_fresh request key w = (Ok resp, w') ->
  exists result data,
    executor w (url request) (run_config_of request) = Ok result
    /\ res_success result = true
    /\ response_data request result (utcnow w) = Ok data
    /\ CrawlResponse_new data = Ok resp
    /\ set_cached_result key (Py.VDict data) default_ttl
         (log_call (url request) (run_config_of request) w)
       = (Ok tt, w').
Proof.
  unfold crawl_fresh, bind, call_executor, now, lift, raise.
  destruct (executor w (url request) (run_config_of request))
    as [result |]; [| discriminate].
  destruct (res_success result) eqn:Hs; simpl; [| discriminate].
  destruct (response_data request result (utcnow w)) as [data |] eqn:Hd;
    [| discriminate].
  destruct (set_cached_result key (Py.VDict data) default_ttl
              (log_call (url request) (run_config_of request) w))
    as [[[] | e] w2] eqn:Hset; [| discriminate].
  destruct (CrawlResponse_new data) as [resp' |] eqn:Hr; [| discriminate].
  intros [= <- <-]. now exists result, data.
Qed.

Lemma set_cached_result_stores (key : string) (v : Py.value) (ttl : Z)
    (w w' : world) :
  redis_client w = true -> redis_up w = true ->
  set_cached_result key v ttl w = (Ok tt, w') ->
  w' = set_store (<[key := (ttl, Json v)]> (redis_store w)) w.
Proof.
  intros Hc Hu. unfold set_cached_result, try_except, redis_setex.
  rewrite Hc, Hu. simpl. now intros [= <-].
Qed.

Lemma recoerce_strings_id (xs : list string) :
  map recoerce_link (map Py.VStr xs) = xs.
Proof. induction xs; simpl; [| f_equal]; auto. Qed.

Lemma cached_links_strings_id (xs : list string) :
  cached_links (map Py.VStr xs) = xs.
Proof.
  unfold cached_links. now rewrite safety_pass_id, recoerce_strings_id.
Qed.

Lemma cached_links_first_truthy (items : list Py.value) :
  cached_links items = map Spec.coerce_first_truthy items.
Proof.
  unfold cached_links. rewrite safety_pass_id.
  apply map_ext. intros a. apply recoerce_link_first_truthy.
Qed.

(** Reading back the dictionary a fresh crawl stored gives the response
    that crawl returned. *)
Lemma cache_hit_of_response_data (request : CrawlRequest) (r : ExecResult)
    (t : datetime) (data : list (string * Py.value)) :
  response_data request r t = Ok data ->
  Py.truthy (Py.VDict data) = true
  /\ cache_hit (Py.VDict data) = CrawlResponse_new data.
Proof.
  intros H.
  destruct (response_data_inv request r t data H)
    as (links & im & vi & _ & _ & _ & ->).
  split; [reflexivity |].
  unfold cache_hit.
  change (Py.assoc "links" _)
    with (Some (Py.VList (map Py.VStr (final_links_list links)))).
  rewrite !final_links_list_id.
  destruct links as [| x xs]; [reflexivity |].
  change (Py.truthy (Py.VList (map Py.VStr (x :: xs)))) with true.
  change (iterate (Py.VList (map Py.VStr (x :: xs))))
    with (@Ok (list Py.value) (map Py.VStr (x :: xs))).
  unfold obind. rewrite cached_links_strings_id. reflexivity.
Qed.

Lemma assoc_set_item_ne (k k' : string) (v : Py.value)
    (d : list (string * Py.value)) :
  k' <> k -> Py.assoc k' (set_item k v d) = Py.assoc k' d.
Proof.
  intros Hne. induction d as [| [k0 x] d IH]; simpl.
  - destruct (String.eqb_spec k' k); [contradiction | reflexivity].
  - destruct (String.eqb_spec k k0) as [-> | Hk]; simpl.
    + destruct (String.eqb_spec k' k0); [contradiction | reflexivity].
    + destruct (String.eqb_spec k' k0); [reflexivity | exact IH].
Qed.

Lemma assoc_set_item_eq (k : string) (v : Py.value)
    (d : list (string * Py.value)) :
  Py.assoc k (set_item k v d) = Some v.
Proof.
  induction d as [| [k0 x] d IH]; simpl.
  - now rewrite String.eqb_refl.
  - destruct (String.eqb_spec k k0) as [-> | Hk]; simpl.
    + now rewrite String.eqb_refl.
    + destruct (String.eqb_spec k k0); [contradiction | exact IH].
Qed.

Lemma fields_after_set_links (v : Py.value) (d : list (string * Py.value)) :
  let d' := set_item "links" v d in
  field_str "url" d' = field_str "url" d
  /\ field_str "markdown" d' = field_str "markdown" d
  /\ field_str "html" d' = field_str "html" d
  /\ field_media d' = field_media d
  /\ field_metadata d' = field_metadata d
  /\ field_screenshot d' = field_screenshot d
  /\ field_str "timestamp" d' = field_str "timestamp" d
  /\ field_links d' = Ok (convert_links_to_strings v).
Proof.
  unfold field_str, field_media, field_metadata, field_screenshot,
    field_links.
  rewrite assoc_set_item_eq.
  rewrite !assoc_set_item_ne by discriminate. tauto.
Qed.

Lemma cache_hit_inv (v : Py.value) (resp : CrawlResponse) :
  cache_hit v = Ok resp ->
  exists d, v = Py.VDict d /\ Spec.matches_entry d resp.
Proof.
  destruct v as [| b | n | s | l | d]; try discriminate.
  intros H. exists d. split; [reflexivity |].
  unfold cache_hit in H.
  assert (Hplain : CrawlResponse_new d = Ok resp ->
                   (forall l, Py.assoc "links" d = Some (Py.VList l) ->
                              resp_links resp
                              = map Spec.coerce_first_truthy l) ->
                   Spec.matches_entry d resp).
  { intros Hn Hl.
    destruct (CrawlResponse_new_inv d resp Hn)
      as (Hu & Hm & Hh & _ & Hme & Hmt & Hsc & Hts).
    unfold Spec.matches_entry.
    repeat (split; [first [now apply field_str_inv | assumption] |]).
    exact Hl. }
  destruct (Py.assoc "links" d) as [ls |] eqn:Hls.
  - destruct (Py.truthy ls) eqn:Htr.
    + destruct (iterate ls) as [items |] eqn:Hit; [| discriminate].
      simpl in H.
      destruct (CrawlResponse_new_inv _ resp H)
        as (Hu & Hm & Hh & Hl & Hme & Hmt & Hsc & Hts).
      destruct (fields_after_set_links
                  (Py.VList (map Py.VStr (cached_links items))) d)
        as (Eu & Em & Eh & Eme & Emt & Esc & Ets & El).
      rewrite Eu in Hu. rewrite Em in Hm. rewrite Eh in Hh.
      rewrite Eme in Hme. rewrite Emt in Hmt. rewrite Esc in Hsc.
      rewrite Ets in Hts. rewrite El, convert_strings_id in Hl.
      injection Hl as Hl.
      unfold Spec.matches_entry.
      repeat (split; [first [now apply field_str_inv | assumption] |]).
      intros l Hl'. rewrite Hls in Hl'. injection Hl' as ->.
      injection Hit as <-.
      rewrite <- Hl. apply cached_links_first_truthy.
    + apply Hplain; [exact H |].
      intros l [= ->].
      destruct (CrawlResponse_new_inv d resp H) as (_ & _ & _ & Hl & _).
      unfold field_links in Hl. rewrite Hls in Hl. injection Hl as <-.
      destruct l; [reflexivity | discriminate Htr].
  - apply Hplain; [exact H | discriminate].
Qed.

End Orchestrator.

(** C4. A crawl that misses the cache and succeeds returns a response whose
    timestamp is the clock's UTC time when the response is built, whatever
    the executor returned.  A crawl that hits the cache leaves the process
    as it is, returns a response equal in every field to the stored entry,
    its links coerced, so with the stored timestamp, and returns the same
    response at any other clock time.  A response returned on a miss, with
    the cache reachable, is returned again, timestamp included, by every
    later crawl of the same request. *)
Theorem C4_timestamp_now_when_fresh_stored_when_cached
    (request : Crawl.CrawlRequest) (w w' : Crawl.world)
    (resp : Crawl.CrawlResponse) :
  Crawl.perform_crawl request w = (Ok resp, w') ->
  (Py.truthy (Spec.cache_lookup request w) = false ->
   Crawl.resp_timestamp resp = isoformat (Crawl.utcnow w)
   /\ (Crawl.redis_client w = true -> Crawl.redis_up w = true ->
       forall t,
         Crawl.perform_crawl request (Spec.set_utcnow t w')
         = (Ok resp, Spec.set_utcnow t w')))
  /\ (Py.truthy (Spec.cache_lookup request w) = true ->
      w' = w
      /\ (exists d, Spec.cache_lookup request w = Py.VDict d
                    /\ Spec.matches_entry d resp)
      /\ forall t,
           Crawl.perform_crawl request (Spec.set_utcnow t w)
           = (Ok resp, Spec.set_utcnow t w)).
Proof.
  intros Hrun.
  pose proof (cache_lookup_spec request w) as Hlook.
  rewrite (perform_crawl_unfold request w _ Hlook) in Hrun.
  split; intros Htr; rewrite Htr in Hrun.
  - assert (Hfresh : Crawl.crawl_fresh request
                       (Crawl.request_cache_key request) w = (Ok resp, w')).
    { unfold Crawl.try_except, Crawl.raise in Hrun.
      destruct (Crawl.crawl_fresh request (Crawl.request_cache_key request) w)
        as [[r | e] w2]; [exact Hrun | discriminate Hrun]. }
    destruct (crawl_fresh_inv request _ w w' resp Hfresh)
      as (result & data & Hex & Hs & Hdata & Hresp & Hset).
    split.
    + destruct (response_data_inv request result _ data Hdata)
        as (links & im & vi & _ & _ & _ & ->).
      destruct (CrawlResponse_new_inv _ resp Hresp)
        as (_ & _ & _ & _ & _ & _ & _ & Hts).
      now injection Hts as <-.
    + intros Hc Hu t.
      apply set_cached_result_stores in Hset; [| exact Hc | exact Hu].
      destruct (cache_hit_of_response_data request result _ data Hdata)
        as (Htruthy & Hhit).
      assert (Hget : Crawl.get_cached_result (Crawl.request_cache_key request)
                       (Spec.set_utcnow t w')
                     = (Ok (Py.VDict data), Spec.set_utcnow t w')).
      { subst w'.
        unfold Crawl.get_cached_result, Crawl.try_except, Crawl.bind,
          Crawl.redis_get, Crawl.ret. simpl.
        rewrite Hc, Hu. simpl. now rewrite lookup_insert_eq. }
      rewrite (perform_crawl_unfold request _ _ Hget), Htruthy, Hhit.
      now rewrite Hresp.
  - injection Hrun as Hhit <-.
    split; [reflexivity |]. split.
    + now apply cache_hit_inv.
    + intros t.
      rewrite (perform_crawl_unfold request _ _
                 (get_cached_result_set_utcnow _ t w _ Hlook)).
      now rewrite Htr, Hhit.
Qed.

Lemma C4_timestamp_now_when_fresh_stored_when_cached_witness :
  Crawl.resp_timestamp Ex.response_a = "2024-03-09T07:05:01.000042"%string
  /\ Crawl.perform_crawl Ex.request_a Ex.world_cached
     = (Ok Ex.response_a, Ex.world_cached)
  /\ exists d, Spec.cache_lookup Ex.request_a Ex.world_cached = Py.VDict d
               /\ Spec.matches_entry d Ex.response_a.
Proof.
  assert (Hmiss : Crawl.perform_crawl Ex.request_a Ex.world_ok
                  = (Ok Ex.response_a,
                     snd (Crawl.perform_crawl Ex.request_a Ex.world_ok)))
    by (vm_compute; reflexivity).
  destruct (C4_timestamp_now_when_fresh_stored_when_cached
              Ex.request_a Ex.world_ok _ Ex.response_a Hmiss)
    as (Hfresh & _).
  destruct (Hfresh eq_refl) as (Hts & Hagain).
  pose proof (Hagain eq_refl eq_refl Ex.later) as Hhit.
  fold Ex.world_cached in Hhit.
  destruct (C4_timestamp_now_when_fresh_stored_when_cached
              Ex.request_a Ex.world_cached _ Ex.response_a Hhit)
    as (_ & Hcached).
  destruct (Hcached eq_refl) as (_ & Hentry & _).
  split; [exact Hts |]. split; [exact Hhit | exact Hentry].
Defined.

(* ===================================================================== *)
(** ** Further properties of the two services *)
(* ===================================================================== *)

Section Frames.

Import Crawl.

Lemma set_store_same (w : world) : set_store (redis_store w) w = w.
Proof. now destruct w. Qed.

Lemma get_cached_result_world (key : string) (w : world) :
  snd (get_cached_result key w) = w.
Proof.
  destruct (get_cached_result_total key w) as [v Hv]. now rewrite Hv.
Qed.

(** A cache set answers [None] and changes at most the store, at the key. *)
Lemma set_cached_result_world (key : string) (v : Py.value) (ttl : Z)
    (w : world) :
  set_cached_result key v ttl w
  = (Ok tt,
     if redis_client w && redis_up w
     then set_store (<[key := (ttl, Json v)]> (redis_store w)) w
     else w).
Proof.
  unfold set_cached_result, try_except, redis_setex, ret.
  destruct (redis_client w); simpl; [| reflexivity].
  now destruct (redis_up w).
Qed.

(** The cache-miss branch, step by step. *)
Lemma crawl_fresh_unfold (request : CrawlRequest) (key : string) (w : world) :
  let w1 := log_call (url request) (run_config_of request) w in
  crawl_fresh request key w
  = match executor w (url request) (run_config_of request) with
    | Raise e => (Raise e, w1)
    | Ok result =>
        if res_success result then
          match response_data request result (utcnow w) with
          | Raise e => (Raise e, w1)
          | Ok data =>
              (CrawlResponse_new data,
               if redis_client w && redis_up w
               then set_store
                      (<[key := (default_ttl, Json (Py.VDict data))]>
                         (redis_store w)) w1
               else w1)
          end
        else
          (Raise (HTTPException 500
                    ("Crawl failed: " +:+ res_error_message result)), w1)
    end.
Proof.
  unfold crawl_fresh, bind, call_executor, now, lift, raise.
  destruct (executor w (url request) (run_config_of request))
    as [result | e]; [| reflexivity].
  destruct (res_success result); simpl; [| reflexivity].
  destruct (response_data request result (utcnow w)) as [data | e];
    [| reflexivity].
  rewrite set_cached_result_world. simpl.
  now destruct (CrawlResponse_new data).
Qed.

(** [perform_crawl] on a miss. *)
Lemma perform_crawl_miss (request : CrawlRequest) (w : world) :
  Py.truthy (Spec.cache_lookup request w) = false ->
  perform_crawl request w
  = match crawl_fresh request (request_cache_key request) w with
    | (Ok resp, w') => (Ok resp, w')
    | (Raise e, w') => (Raise (HTTPException 500 (exn_str e)), w')
    end.
Proof.
  intros H.
  rewrite (perform_crawl_unfold request w _ (cache_lookup_spec request w)), H.
  reflexivity.
Qed.

Lemma perform_crawl_hit (request : CrawlRequest) (w : world) :
  Py.truthy (Spec.cache_lookup request w) = true ->
  perform_crawl request w = (cache_hit (Spec.cache_lookup request w), w).
Proof.
  intros H.
  rewrite (perform_crawl_unfold request w _ (cache_lookup_spec request w)), H.
  reflexivity.
Qed.

Lemma cache_lookup_down (request : CrawlRequest) (w : world) :
  redis_client w = false \/ redis_up w = false ->
  Spec.cache_lookup request w = Py.VNone.
Proof.
  intros H. unfold Spec.cache_lookup.
  now rewrite (get_cached_result_down _ w H).
Qed.

(** What the lookup finds when the cache answers. *)
Lemma cache_lookup_up (request : CrawlRequest) (w : world) :
  redis_client w = true -> redis_up w = true ->
  Spec.cache_lookup request w
  = match redis_store w !! request_cache_key request with
    | Some (_, Json v) => v
    | _ => Py.VNone
    end.
Proof.
  intros Hc Hu.
  unfold Spec.cache_lookup, get_cached_result, try_except, bind, redis_get,
    ret, raise.
  rewrite Hc, Hu. simpl.
  destruct (redis_store w !! request_cache_key request) as [[ttl [v | raw]] |];
    simpl; try reflexivity.
  now destruct (String.eqb raw EmptyString).
Qed.

End Frames.

(** X1. On a cache miss [perform_crawl] calls the executor exactly once,
    with the address of the request and the configuration built from it,
    whatever the outcome; on a cache hit it calls nothing and leaves the
    process as it is, also when the entry cannot be read as a response. *)
Theorem X1_executor_called_once_on_miss_never_on_hit
    (request : Crawl.CrawlRequest) (w : Crawl.world) :
  (Py.truthy (Spec.cache_lookup request w) = false ->
   Crawl.executor_calls (snd (Crawl.perform_crawl request w))
   = (Crawl.url request, Crawl.run_config_of request)
     :: Crawl.executor_calls w)
  /\ (Py.truthy (Spec.cache_lookup request w) = true ->
      snd (Crawl.perform_crawl request w) = w).
Proof.
  split; intros H.
  - rewrite (perform_crawl_miss request w H), crawl_fresh_unfold.
    destruct (Crawl.executor w (Crawl.url request)
                (Crawl.run_config_of request)) as [result | e];
      [| reflexivity].
    destruct (Crawl.res_success result); [| reflexivity].
    destruct (Crawl.response_data request result (Crawl.utcnow w))
      as [data | e]; [| reflexivity].
    destruct (Crawl.CrawlResponse_new data);
      now destruct (Crawl.redis_client w && Crawl.redis_up w).
  - now rewrite (perform_crawl_hit request w H).
Qed.

Lemma X1_executor_called_once_on_miss_never_on_hit_witness :
  Crawl.executor_calls (snd (Crawl.perform_crawl Ex.request_a Ex.world_ok))
  = [(Crawl.url Ex.request_a, Crawl.run_config_of Ex.request_a)]
  /\ snd (Crawl.perform_crawl Ex.request_a Ex.world_cached) = Ex.world_cached.
Proof.
  split.
  - apply (X1_executor_called_once_on_miss_never_on_hit
             Ex.request_a Ex.world_ok). reflexivity.
  - apply (X1_executor_called_once_on_miss_never_on_hit
             Ex.request_a Ex.world_cached). reflexivity.
Defined.

Section Hits.

Import Crawl.

(** A crawl whose key holds a dictionary with items is answered from it. *)
Lemma stored_entry_hit (request : CrawlRequest) (w : world) (ttl : Z)
    (kv : string * Py.value) (d : list (string * Py.value)) :
  redis_client w = true -> redis_up w = true ->
  redis_store w !! request_cache_key request
  = Some (ttl, Json (Py.VDict (kv :: d))) ->
  perform_crawl request w = (cache_hit (Py.VDict (kv :: d)), w).
Proof.
  intros Hc Hu Hst.
  assert (Hl : Spec.cache_lookup request w = Py.VDict (kv :: d))
    by now rewrite cache_lookup_up, Hst.
  rewrite perform_crawl_hit; now rewrite Hl.
Qed.

Lemma response_data_cons (request : CrawlRequest) (r : ExecResult)
    (t : datetime) (data : list (string * Py.value)) :
  response_data request r t = Ok data -> exists kv d, data = kv :: d.
Proof.
  intros H.
  destruct (response_data_inv request r t data H)
    as (links & im & vi & _ & _ & _ & ->).
  eauto.
Qed.

(** The process after a miss on which [response_data] was built, with the
    cache answering. *)
Lemma perform_crawl_stores (request : CrawlRequest) (w : world)
    (result : ExecResult) (data : list (string * Py.value)) :
  redis_client w = true -> redis_up w = true ->
  Py.truthy (Spec.cache_lookup request w) = false ->
  executor w (url request) (run_config_of request) = Ok result ->
  res_success result = true ->
  response_data request result (utcnow w) = Ok data ->
  perform_crawl request w
  = (match CrawlResponse_new data with
     | Ok resp => Ok resp
     | Raise e => Raise (HTTPException 500 (exn_str e))
     end,
     set_store
       (<[request_cache_key request
          := (default_ttl, Json (Py.VDict data))]> (redis_store w))
       (log_call (url request) (run_config_of request) w)).
Proof.
  intros Hc Hu Hmiss Hex Hs Hdata.
  rewrite (perform_crawl_miss request w Hmiss), crawl_fresh_unfold.
  rewrite Hex, Hs, Hdata, Hc, Hu. simpl.
  now destruct (CrawlResponse_new data).
Qed.

(** A later crawl with the same key, after such a miss. *)
Lemma perform_crawl_again (r1 r2 : CrawlRequest) (w : world)
    (result : ExecResult) (data : list (string * Py.value)) (t : datetime) :
  redis_client w = true -> redis_up w = true ->
  request_cache_key r2 = request_cache_key r1 ->
  response_data r1 result (utcnow w) = Ok data ->
  let w' :=
    Spec.set_utcnow t
      (set_store
         (<[request_cache_key r1
            := (default_ttl, Json (Py.VDict data))]> (redis_store w))
         (log_call (url r1) (run_config_of r1) w)) in
  perform_crawl r2 w' = (CrawlResponse_new data, w').
Proof.
  intros Hc Hu Hk Hdata w'.
  destruct (response_data_cons _ _ _ _ Hdata) as (kv & d & ->).
  destruct (cache_hit_of_response_data _ _ _ _ Hdata) as (_ & <-).
  apply (stored_entry_hit r2 w' default_ttl kv d); [exact Hc | exact Hu |].
  rewrite Hk. unfold w'. simpl. apply lookup_insert_eq.
Qed.

End Hits.

(** X2. On a cache miss every failure of [perform_crawl] reaches the caller
    as HTTP 500.  When the executor raises, the detail is the text of its
    exception; when it answers without success, the detail is the text of
    the inner HTTP 500, [500: Crawl failed: ] and the executor's message.
    In both cases the executor has been called once and nothing is written
    to the store. *)
Theorem X2_miss_failures_are_http_500
    (request : Crawl.CrawlRequest) (w : Crawl.world) :
  Py.truthy (Spec.cache_lookup request w) = false ->
  (forall e,
     fst (Crawl.perform_crawl request w) = Raise e ->
     exists detail, e = HTTPException 500 detail)
  /\ (forall e0,
        Crawl.executor w (Crawl.url request) (Crawl.run_config_of request)
        = Raise e0 ->
        Crawl.perform_crawl request w
        = (Raise (HTTPException 500 (exn_str e0)),
           Crawl.log_call (Crawl.url request) (Crawl.run_config_of request)
             w))
  /\ (forall result,
        Crawl.executor w (Crawl.url request) (Crawl.run_config_of request)
        = Ok result ->
        Crawl.res_success result = false ->
        Crawl.perform_crawl request w
        = (Raise (HTTPException 500
                    ("500: Crawl failed: "
                     +:+ Crawl.res_error_message result)),
           Crawl.log_call (Crawl.url request) (Crawl.run_config_of request)
             w)).
Proof.
  intros Hmiss.
  rewrite (perform_crawl_miss request w Hmiss).
  split; [| split].
  - intros e.
    destruct (Crawl.crawl_fresh request (Crawl.request_cache_key request) w)
      as [[resp | e1] w1]; [discriminate |].
    intros [= <-]. eauto.
  - intros e0 Hex. now rewrite crawl_fresh_unfold, Hex.
  - intros result Hex Hs. now rewrite crawl_fresh_unfold, Hex, Hs.
Qed.

Lemma X2_miss_failures_are_http_500_witness :
  let w := Ex.world_with true true (fun _ _ => Raise (UpstreamFault "net")) in
  Crawl.perform_crawl Ex.request_a w
  = (Raise (HTTPException 500 "net"),
     Crawl.log_call (Crawl.url Ex.request_a)
       (Crawl.run_config_of Ex.request_a) w).
Proof.
  intros w.
  destruct (X2_miss_failures_are_http_500 Ex.request_a w eq_refl)
    as (_ & Hraise & _).
  exact (Hraise (UpstreamFault "net") eq_refl).
Defined.

(** X3. With no cache client, or with the store not answering, a crawl is
    always made afresh, whatever the store holds: the executor is called
    once, the store is left as it is, and the response built from the
    executor's result is returned. *)
Theorem X3_crawl_without_cache
    (request : Crawl.CrawlRequest) (w : Crawl.world) :
  Crawl.redis_client w = false \/ Crawl.redis_up w = false ->
  Crawl.redis_store (snd (Crawl.perform_crawl request w))
  = Crawl.redis_store w
  /\ Crawl.executor_calls (snd (Crawl.perform_crawl request w))
     = (Crawl.url request, Crawl.run_config_of request)
       :: Crawl.executor_calls w
  /\ forall result data resp,
       Crawl.executor w (Crawl.url request) (Crawl.run_config_of request)
       = Ok result ->
       Crawl.res_success result = true ->
       Crawl.response_data request result (Crawl.utcnow w) = Ok data ->
       Crawl.CrawlResponse_new data = Ok resp ->
       fst (Crawl.perform_crawl request w) = Ok resp.
Proof.
  intros Hdown.
  assert (Hmiss : Py.truthy (Spec.cache_lookup request w) = false)
    by now rewrite (cache_lookup_down request w Hdown).
  assert (Hoff : Crawl.redis_client w && Crawl.redis_up w = false).
  { destruct Hdown as [-> | ->]; [reflexivity | apply andb_false_r]. }
  rewrite (perform_crawl_miss request w Hmiss), crawl_fresh_unfold, Hoff.
  split; [| split].
  - destruct (Crawl.executor w (Crawl.url request)
                (Crawl.run_config_of request)) as [result | e];
      [| reflexivity].
    destruct (Crawl.res_success result); [| reflexivity].
    destruct (Crawl.response_data request result (Crawl.utcnow w))
      as [data | e]; [| reflexivity].
    now destruct (Crawl.CrawlResponse_new data).
  - destruct (Crawl.executor w (Crawl.url request)
                (Crawl.run_config_of request)) as [result | e];
      [| reflexivity].
    destruct (Crawl.res_success result); [| reflexivity].
    destruct (Crawl.response_data request result (Crawl.utcnow w))
      as [data | e]; [| reflexivity].
    now destruct (Crawl.CrawlResponse_new data).
  - intros result data resp Hex Hs Hdata Hresp.
    now rewrite Hex, Hs, Hdata, Hresp.
Qed.

Lemma X3_crawl_without_cache_witness :
  Crawl.redis_store (snd (Crawl.perform_crawl Ex.request_a Ex.world_no_client))
  = Crawl.redis_store Ex.world_no_client
  /\ fst (Crawl.perform_crawl Ex.request_a Ex.world_store_down)
     = Ok Ex.response_a.
Proof.
  split.
  - apply (X3_crawl_without_cache Ex.request_a Ex.world_no_client).
    left. reflexivity.
  - destruct (X3_crawl_without_cache Ex.request_a Ex.world_store_down)
      as (_ & _ & H); [right; reflexivity |].
    apply (H Ex.result_ok
             (match Crawl.response_data Ex.request_a Ex.result_ok
                      (Crawl.utcnow Ex.world_store_down) with
              | Ok d => d
              | Raise _ => []
              end)); reflexivity.
Defined.

(** X4. The entry is written to the cache before the response is validated.
    When the dictionary built from the executor's result fails validation,
    the crawl answers HTTP 500 and the dictionary is in the store all the
    same, under the key of the request, for one day; every later crawl of
    the request then finds it, does not call the executor, and raises the
    validation error itself, outside the handler that makes an HTTP 500. *)
Theorem X4_entry_stored_before_validation
    (request : Crawl.CrawlRequest) (w : Crawl.world)
    (result : Crawl.ExecResult) (data : list (string * Py.value)) (e : exn) :
  Crawl.redis_client w = true -> Crawl.redis_up w = true ->
  Py.truthy (Spec.cache_lookup request w) = false ->
  Crawl.executor w (Crawl.url request) (Crawl.run_config_of request)
  = Ok result ->
  Crawl.res_success result = true ->
  Crawl.response_data request result (Crawl.utcnow w) = Ok data ->
  Crawl.CrawlResponse_new data = Raise e ->
  let w' := snd (Crawl.perform_crawl request w) in
  fst (Crawl.perform_crawl request w)
  = Raise (HTTPException 500 (exn_str e))
  /\ Crawl.redis_store w' !! Crawl.request_cache_key request
     = Some (86400%Z, Crawl.Json (Py.VDict data))
  /\ forall t,
       Crawl.perform_crawl request (Spec.set_utcnow t w')
       = (Raise e, Spec.set_utcnow t w').
Proof.
  intros Hc Hu Hmiss Hex Hs Hdata Hbad w'. unfold w'.
  rewrite (perform_crawl_stores request w result data Hc Hu Hmiss Hex Hs Hdata).
  rewrite Hbad. simpl.
  split; [reflexivity |]. split; [apply lookup_insert_eq |].
  intros t.
  rewrite (perform_crawl_again request request w result data t Hc Hu eq_refl
             Hdata).
  now rewrite Hbad.
Qed.

Lemma X4_entry_stored_before_validation_witness :
  let w' := snd (Crawl.perform_crawl Ex.request_a Ex.world_src_none) in
  fst (Crawl.perform_crawl Ex.request_a Ex.world_src_none)
  = Raise (HTTPException 500 "media: Input should be a valid string")
  /\ is_Some (Crawl.redis_store w' !! Crawl.request_cache_key Ex.request_a)
  /\ Crawl.perform_crawl Ex.request_a (Spec.set_utcnow Ex.later w')
     = (Raise (ValidationError "media: Input should be a valid string"),
        Spec.set_utcnow Ex.later w').
Proof.
  intros w'.
  destruct (X4_entry_stored_before_validation Ex.request_a Ex.world_src_none
              Ex.result_src_none
              (match Crawl.response_data Ex.request_a Ex.result_src_none
                       (Crawl.utcnow Ex.world_src_none) with
               | Ok d => d
               | Raise _ => []
               end)
              (ValidationError "media: Input should be a valid string")
              eq_refl eq_refl eq_refl eq_refl eq_refl eq_refl eq_refl)
    as (H1 & H2 & H3).
  split; [exact H1 |]. split; [| exact (H3 Ex.later)].
  unfold w'. rewrite H2. eauto.
Defined.

(** X5. The fields of a request that are not in its cache key are ignored
    on a hit.  After a crawl that missed the cache and returned a response,
    with the cache answering, a crawl of any request with the same address,
    strategies and screenshot flag returns that same response, at any later
    time, whatever its selector, script, wait condition, timeout and
    threshold, and without a call to the executor. *)
Theorem X5_fields_outside_the_key_ignored_on_hit
    (r1 r2 : Crawl.CrawlRequest) (w w' : Crawl.world)
    (resp : Crawl.CrawlResponse) :
  Crawl.redis_client w = true -> Crawl.redis_up w = true ->
  Py.truthy (Spec.cache_lookup r1 w) = false ->
  Crawl.perform_crawl r1 w = (Ok resp, w') ->
  Crawl.url r2 = Crawl.url r1 ->
  Crawl.extraction_strategy r2 = Crawl.extraction_strategy r1 ->
  Crawl.chunking_strategy r2 = Crawl.chunking_strategy r1 ->
  Crawl.screenshot r2 = Crawl.screenshot r1 ->
  forall t,
    Crawl.perform_crawl r2 (Spec.set_utcnow t w')
    = (Ok resp, Spec.set_utcnow t w').
Proof.
  intros Hc Hu Hmiss Hrun Hurl He Hch Hs t.
  assert (Hk : Crawl.request_cache_key r2 = Crawl.request_cache_key r1)
    by (unfold Crawl.request_cache_key; now rewrite Hurl, He, Hch, Hs).
  pose proof Hrun as Hrun'.
  rewrite (perform_crawl_miss r1 w Hmiss), crawl_fresh_unfold in Hrun'.
  destruct (Crawl.executor w (Crawl.url r1) (Crawl.run_config_of r1))
    as [result | e0] eqn:Hex; [| discriminate].
  destruct (Crawl.res_success result) eqn:Hsucc; [| discriminate].
  destruct (Crawl.response_data r1 result (Crawl.utcnow w))
    as [data | e0] eqn:Hdata; [| discriminate].
  rewrite Hc, Hu in Hrun'. simpl in Hrun'.
  destruct (Crawl.CrawlResponse_new data) as [resp' | e0] eqn:Hresp;
    [| discriminate].
  injection Hrun' as <- <-.
  rewrite (perform_crawl_again r1 r2 w result data t Hc Hu Hk Hdata).
  now rewrite Hresp.
Qed.

Lemma X5_fields_outside_the_key_ignored_on_hit_witness :
  Crawl.perform_crawl Ex.request_b Ex.world_cached
  = (Ok Ex.response_a, Ex.world_cached).
Proof.
  apply (X5_fields_outside_the_key_ignored_on_hit Ex.request_a Ex.request_b
           Ex.world_ok (snd (Crawl.perform_crawl Ex.request_a Ex.world_ok))
           Ex.response_a);
    reflexivity.
Defined.

Section Normalisation.

Import Crawl.

Lemma media_items_keys (d : list (string * Py.value))
    (r : list (string * list string)) :
  media_items d = Some r -> map fst r = map fst d.
Proof.
  revert r. induction d as [| [k v] d IH]; intros r; simpl.
  - now intros [= <-].
  - destruct v as [| | | | l |]; try discriminate.
    destruct (all_str l) as [x |]; [| discriminate].
    destruct (media_items d) as [rest |]; [| discriminate].
    intros [= <-]. simpl. f_equal. now apply IH.
Qed.

Lemma field_media_keys (d m : list (string * Py.value))
    (r : list (string * list string)) :
  Py.assoc "media" d = Some (Py.VDict m) ->
  field_media d = Ok r -> map fst r = map fst m.
Proof.
  unfold field_media. intros ->.
  destruct (media_items m) as [x |] eqn:Hitems; [| discriminate].
  intros [= <-]. now apply media_items_keys.
Qed.

(** A response that came out of the cache-miss branch. *)
Lemma perform_crawl_fresh_inv (request : CrawlRequest) (w w' : world)
    (resp : CrawlResponse) :
  Py.truthy (Spec.cache_lookup request w) = false ->
  perform_crawl request w = (Ok resp, w') ->
  exists result data,
    executor w (url request) (run_config_of request) = Ok result
    /\ res_success result = true
    /\ response_data request result (utcnow w) = Ok data
    /\ CrawlResponse_new data = Ok resp.
Proof.
  intros Hmiss Hrun.
  rewrite (perform_crawl_miss request w Hmiss) in Hrun.
  destruct (crawl_fresh request (request_cache_key request) w)
    as [[r | e] w1] eqn:Hf; [| discriminate].
  injection Hrun as -> ->.
  destruct (crawl_fresh_inv request _ w w' resp Hf)
    as (result & data & H1 & H2 & H3 & H4 & _).
  now exists result, data.
Qed.

Lemma iterate_falsy (v : Py.value) (l : list Py.value) :
  Py.truthy v = false -> iterate v = Ok l -> l = [].
Proof.
  destruct v as [| b | n | s | x | d]; simpl; try discriminate.
  - destruct s; [now intros _ [= <-] | discriminate].
  - destruct x; [now intros _ [= <-] | discriminate].
  - destruct d; [now intros _ [= <-] | discriminate].
Qed.

Lemma link_partition_absent (r : ExecResult) (part : string) :
  (forall v, Py.assoc part (as_dict (res_links r)) = Some v ->
             Py.truthy v = false) ->
  link_partition r part = Py.VList [].
Proof.
  intros H. unfold link_partition, Py.get_default, Py.or_.
  destruct (Py.assoc part (as_dict (res_links r))) as [v |]; [| reflexivity].
  now rewrite (H v eq_refl).
Qed.

Lemma link_partition_list (r : ExecResult) (part : string)
    (l : list Py.value) :
  Py.assoc part (as_dict (res_links r)) = Some (Py.VList l) ->
  iterate (link_partition r part) = Ok l.
Proof.
  intros H. unfold link_partition, Py.get_default, Py.or_. rewrite H.
  now destruct l.
Qed.

End Normalisation.

(** X6. The response of a crawl that missed the cache echoes the address of
    the request; its metadata holds the four keys title, description,
    keywords and language and no other, each with the executor's value or
    its default, so any other metadata of the executor is dropped; its
    media holds the two keys images and videos; and it has no screenshot
    when the request did not ask for one, whatever the executor returned. *)
Theorem X6_fresh_response_shape
    (request : Crawl.CrawlRequest) (w w' : Crawl.world)
    (resp : Crawl.CrawlResponse) :
  Py.truthy (Spec.cache_lookup request w) = false ->
  Crawl.perform_crawl request w = (Ok resp, w') ->
  Crawl.resp_url resp = Crawl.url request
  /\ map fst (Crawl.resp_metadata resp)
     = ["title"; "description"; "keywords"; "language"]%string
  /\ (exists result,
        Crawl.executor w (Crawl.url request) (Crawl.run_config_of request)
        = Ok result
        /\ Crawl.resp_metadata resp
           = Crawl.as_dict (Crawl.metadata_of result))
  /\ map fst (Crawl.resp_media resp) = ["images"; "videos"]%string
  /\ (Crawl.screenshot request = false -> Crawl.resp_screenshot resp = None).
Proof.
  intros Hmiss Hrun.
  destruct (perform_crawl_fresh_inv request w w' resp Hmiss Hrun)
    as (result & data & Hex & _ & Hdata & Hresp).
  destruct (response_data_inv request result _ data Hdata)
    as (links & im & vi & _ & _ & _ & ->).
  destruct (CrawlResponse_new_inv _ resp Hresp)
    as (Hu & _ & _ & _ & Hme & Hmt & Hsc & _).
  injection Hu as <-. injection Hmt as <-.
  split; [reflexivity |]. split; [reflexivity |].
  split; [now exists result |]. split.
  - apply (field_media_keys _
             [("images", Py.VList im); ("videos", Py.VList vi)]%string)
      in Hme; [now rewrite Hme | reflexivity].
  - intros Hno. unfold Crawl.field_screenshot in Hsc.
    change (Py.assoc "screenshot" _)
      with (Some (Crawl.screenshot_of request result)) in Hsc.
    unfold Crawl.screenshot_of in Hsc. rewrite Hno in Hsc.
    now injection Hsc as <-.
Qed.

Lemma X6_fresh_response_shape_witness :
  Crawl.resp_url Ex.response_a = "http://a/"%string
  /\ map fst (Crawl.resp_metadata Ex.response_a)
     = ["title"; "description"; "keywords"; "language"]%string
  /\ map fst (Crawl.resp_media Ex.response_a) = ["images"; "videos"]%string
  /\ Crawl.resp_screenshot Ex.response_a = None.
Proof.
  destruct (X6_fresh_response_shape Ex.request_a Ex.world_ok
              (snd (Crawl.perform_crawl Ex.request_a Ex.world_ok))
              Ex.response_a eq_refl eq_refl)
    as (H1 & H2 & _ & H4 & H5).
  split; [exact H1 |]. split; [exact H2 |]. split; [exact H4 |].
  exact (H5 eq_refl).
Defined.

(** X7. Links of the executor that are no mapping are dropped as a whole,
    a list of links included: the normalised links are empty.  Within a
    mapping, a partition that is absent, [None] or otherwise falsy counts
    as empty, so with one list under [external] and no truthy [internal]
    the links are the coerced external ones. *)
Theorem X7_links_not_a_mapping_are_dropped (r : Crawl.ExecResult) :
  ((forall d, Crawl.res_links r <> Py.VDict d) ->
   Crawl.all_links r = Ok [])
  /\ (forall le,
        (forall v, Py.assoc "internal" (Crawl.as_dict (Crawl.res_links r))
                   = Some v -> Py.truthy v = false) ->
        Py.assoc "external" (Crawl.as_dict (Crawl.res_links r))
        = Some (Py.VList le) ->
        Crawl.all_links r = Ok (map Crawl.coerce_link le)).
Proof.
  split.
  - intros H. unfold Crawl.all_links, Crawl.link_partition.
    destruct (Crawl.res_links r) as [| b | n | s | l | d]; try reflexivity.
    now destruct (H d).
  - intros le Hi He. unfold Crawl.all_links.
    rewrite (link_partition_absent r "internal" Hi).
    rewrite (link_partition_list r "external" le He). reflexivity.
Qed.

Lemma X7_links_not_a_mapping_are_dropped_witness :
  Crawl.all_links
    {| Crawl.res_success := true; Crawl.res_error_message := EmptyString;
       Crawl.res_markdown := Crawl.MarkdownValue (Py.VStr "m");
       Crawl.res_cleaned_html := None; Crawl.res_html := Py.VStr "h";
       Crawl.res_links := Py.VList [Py.VStr "http://c"];
       Crawl.res_media := Py.VNone; Crawl.res_metadata := Py.VNone;
       Crawl.res_screenshot := None |}
  = Ok []
  /\ Crawl.all_links
       {| Crawl.res_success := true; Crawl.res_error_message := EmptyString;
          Crawl.res_markdown := Crawl.MarkdownValue (Py.VStr "m");
          Crawl.res_cleaned_html := None; Crawl.res_html := Py.VStr "h";
          Crawl.res_links :=
            Py.VDict [("internal", Py.VNone);
                      ("external", Py.VList [Py.VStr "http://c"])];
          Crawl.res_media := Py.VNone; Crawl.res_metadata := Py.VNone;
          Crawl.res_screenshot := None |}
     = Ok ["http://c"%string].
Proof.
  split.
  - match goal with
    | |- Crawl.all_links ?r = _ =>
        destruct (X7_links_not_a_mapping_are_dropped r) as (H & _)
    end.
    apply H. intros d. discriminate.
  - match goal with
    | |- Crawl.all_links ?r = _ =>
        destruct (X7_links_not_a_mapping_are_dropped r) as (_ & H)
    end.
    apply (H [Py.VStr "http://c"]).
    + simpl. intros v [= <-]. reflexivity.
    + reflexivity.
Defined.

(** X8. Building the link list raises only when one of the two partitions
    holds a truthy value that cannot be iterated, which among the values
    of the embedding is a non-zero integer or [True]; the exception is the
    [TypeError] of the iteration.  In every other case each partition is
    iterated: a text by its characters, a mapping by its keys. *)
Theorem X8_links_raise_only_on_a_non_iterable_partition
    (r : Crawl.ExecResult) (e : exn) :
  Crawl.all_links r = Raise e ->
  exists part v,
    (part = "internal"%string \/ part = "external"%string)
    /\ Crawl.link_partition r part = v
    /\ Py.assoc part (Crawl.as_dict (Crawl.res_links r)) = Some v
    /\ ((exists n, v = Py.VInt n /\ n <> 0%Z) \/ v = Py.VBool true)
    /\ e = TypeError ("'" +:+ Py.type_name v +:+ "' object is not iterable").
Proof.
  assert (Hpart : forall part e0,
            iterate (Crawl.link_partition r part) = Raise e0 ->
            exists v,
              Crawl.link_partition r part = v
              /\ Py.assoc part (Crawl.as_dict (Crawl.res_links r)) = Some v
              /\ ((exists n, v = Py.VInt n /\ n <> 0%Z) \/ v = Py.VBool true)
              /\ e0 = TypeError
                        ("'" +:+ Py.type_name v
                         +:+ "' object is not iterable")).
  { intros part e0. unfold Crawl.link_partition, Py.get_default, Py.or_.
    destruct (Py.assoc part (Crawl.as_dict (Crawl.res_links r)))
      as [v |]; [| discriminate].
    destruct v as [| [] | n | s | l | d]; simpl; try discriminate.
    - intros [= <-]. eexists. repeat split. now right.
    - destruct (Z.eqb_spec n 0) as [-> | Hn]; simpl; [discriminate |].
      intros [= <-]. eexists. repeat split. left. now exists n.
    - destruct (String.eqb s EmptyString); discriminate.
    - destruct l; discriminate.
    - destruct d; discriminate. }
  unfold Crawl.all_links. intros H.
  destruct (iterate (Crawl.link_partition r "internal")) as [li | e1] eqn:Hi.
  - destruct (iterate (Crawl.link_partition r "external")) as [le | e2]
      eqn:He; [discriminate |].
    injection H as <-.
    destruct (Hpart _ _ He) as (v & H1 & H2 & H3 & H4).
    exists "external"%string, v. tauto.
  - injection H as <-.
    destruct (Hpart _ _ Hi) as (v & H1 & H2 & H3 & H4).
    exists "internal"%string, v. tauto.
Qed.

Lemma X8_links_raise_only_on_a_non_iterable_partition_witness :
  exists part v,
    (part = "internal"%string \/ part = "external"%string)
    /\ ((exists n, v = Py.VInt n /\ n <> 0%Z) \/ v = Py.VBool true)
    /\ TypeError "'int' object is not iterable"
       = TypeError ("'" +:+ Py.type_name v +:+ "' object is not iterable").
Proof.
  destruct (X8_links_raise_only_on_a_non_iterable_partition
              {| Crawl.res_success := true;
                 Crawl.res_error_message := EmptyString;
                 Crawl.res_markdown := Crawl.MarkdownValue (Py.VStr "m");
                 Crawl.res_cleaned_html := None;
                 Crawl.res_html := Py.VStr "h";
                 Crawl.res_links := Py.VDict [("internal", Py.VInt 7)];
                 Crawl.res_media := Py.VNone; Crawl.res_metadata := Py.VNone;
                 Crawl.res_screenshot := None |}
              (TypeError "'int' object is not iterable") eq_refl)
    as (part & v & H1 & _ & _ & H4 & H5).
  exists part, v. tauto.
Defined.

(** X9. Unlike a link partition, a media list that is present and [None] is
    not replaced by an empty list: iterating it raises, and a crawl that
    missed the cache answers HTTP 500 with the text of that [TypeError],
    the executor called once and nothing stored. *)
Theorem X9_media_none_is_not_defaulted
    (request : Crawl.CrawlRequest) (w : Crawl.world)
    (result : Crawl.ExecResult) (d : list (string * Py.value))
    (links : list string) :
  Py.truthy (Spec.cache_lookup request w) = false ->
  Crawl.executor w (Crawl.url request) (Crawl.run_config_of request)
  = Ok result ->
  Crawl.res_success result = true ->
  Crawl.all_links result = Ok links ->
  Crawl.res_media result = Py.VDict d ->
  Py.assoc "images" d = Some Py.VNone ->
  Crawl.media_urls result "images"
  = Raise (TypeError "'NoneType' object is not iterable")
  /\ Crawl.perform_crawl request w
     = (Raise (HTTPException 500 "'NoneType' object is not iterable"),
        Crawl.log_call (Crawl.url request) (Crawl.run_config_of request) w).
Proof.
  intros Hmiss Hex Hs Hl Hm Hi.
  assert (Hmedia : Crawl.media_urls result "images"
                   = Raise (TypeError "'NoneType' object is not iterable")).
  { unfold Crawl.media_urls, Py.get_default. rewrite Hm. simpl.
    now rewrite Hi. }
  split; [exact Hmedia |].
  rewrite (perform_crawl_miss request w Hmiss), crawl_fresh_unfold.
  rewrite Hex, Hs. unfold Crawl.response_data. rewrite Hl, Hmedia.
  reflexivity.
Qed.

Lemma X9_media_none_is_not_defaulted_witness :
  let result :=
    {| Crawl.res_success := true; Crawl.res_error_message := EmptyString;
       Crawl.res_markdown := Crawl.MarkdownValue (Py.VStr "m");
       Crawl.res_cleaned_html := None; Crawl.res_html := Py.VStr "h";
       Crawl.res_links := Py.VDict [("internal", Py.VNone)];
       Crawl.res_media := Py.VDict [("images", Py.VNone)];
       Crawl.res_metadata := Py.VNone;
       Crawl.res_screenshot := None |} in
  let w := Ex.world_with true true (fun _ _ => Ok result) in
  Crawl.media_urls result "images"
  = Raise (TypeError "'NoneType' object is not iterable")
  /\ Crawl.perform_crawl Ex.request_a w
     = (Raise (HTTPException 500 "'NoneType' object is not iterable"),
        Crawl.log_call (Crawl.url Ex.request_a)
          (Crawl.run_config_of Ex.request_a) w).
Proof.
  intros result w.
  apply (X9_media_none_is_not_defaulted Ex.request_a w result
           [("images", Py.VNone)]%string []);
    reflexivity.
Defined.

(** X10. Whenever the media loop yields a string for an entry, it is the
    one the rule gives: the text of [src], else of [url], else of the whole
    entry.  An entry that is no mapping always yields a string.  The loop
    yields something else only for a mapping, and then it is the value
    found under [src], or under [url] when there is no [src], as it is. *)
Theorem X10_media_entry_rule (m : Py.value) :
  (Py.is_str (Crawl.coerce_media m) = true ->
   Crawl.coerce_media m = Py.VStr (Spec.media_src_url_text m))
  /\ ((forall d, m <> Py.VDict d) ->
      Crawl.coerce_media m = Py.VStr (Py.str m))
  /\ (Py.is_str (Crawl.coerce_media m) = false ->
      exists d v,
        m = Py.VDict d /\ Crawl.coerce_media m = v
        /\ (Py.assoc "src" d = Some v
            \/ (Py.assoc "src" d = None /\ Py.assoc "url" d = Some v))).
Proof.
  split; [| split].
  - destruct m as [| b | n | s | l | d]; try reflexivity.
    unfold Crawl.coerce_media, Spec.media_src_url_text, Py.get_default.
    destruct (Py.assoc "src" d) as [v |].
    + destruct v; try discriminate. reflexivity.
    + destruct (Py.assoc "url" d) as [v |]; [| reflexivity].
      destruct v; try discriminate. reflexivity.
  - intros H. destruct m as [| b | n | s | l | d]; try reflexivity.
    now destruct (H d).
  - destruct m as [| b | n | s | l | d]; try discriminate.
    intros H. exists d, (Crawl.coerce_media (Py.VDict d)).
    split; [reflexivity |]. split; [reflexivity |].
    unfold Crawl.coerce_media, Py.get_default in *.
    destruct (Py.assoc "src" d) as [v |]; [now left |].
    destruct (Py.assoc "url" d) as [v |]; [now right |].
    discriminate H.
Qed.

Lemma X10_media_entry_rule_witness :
  Crawl.coerce_media (Py.VDict [("url", Py.VStr "http://a/v.mp4")])
  = Py.VStr "http://a/v.mp4"
  /\ Crawl.coerce_media (Py.VInt 3) = Py.VStr "3"
  /\ exists d v,
       Ex.image_src_none = Py.VDict d
       /\ Crawl.coerce_media Ex.image_src_none = v
       /\ (Py.assoc "src" d = Some v
           \/ (Py.assoc "src" d = None /\ Py.assoc "url" d = Some v)).
Proof.
  split; [| split].
  - destruct (X10_media_entry_rule
                (Py.VDict [("url", Py.VStr "http://a/v.mp4")]%string))
      as (H & _ & _).
    apply H. reflexivity.
  - destruct (X10_media_entry_rule (Py.VInt 3)) as (_ & H & _).
    apply H. intros d. discriminate.
  - destruct (X10_media_entry_rule Ex.image_src_none) as (_ & _ & H).
    apply H. reflexivity.
Defined.

(** X11. The validator of the links field never raises: a value that is no
    list gives the empty list, a list gives one string per element, and
    applying it to its own output changes nothing. *)
Theorem X11_links_validator (v : Py.value) :
  ((forall l, v <> Py.VList l) -> Crawl.convert_links_to_strings v = [])
  /\ (forall l, v = Py.VList l ->
        length (Crawl.convert_links_to_strings v) = length l)
  /\ Crawl.convert_links_to_strings
       (Py.VList (map Py.VStr (Crawl.convert_links_to_strings v)))
     = Crawl.convert_links_to_strings v.
Proof.
  split; [| split].
  - intros H. destruct v as [| b | n | s | l | d]; try reflexivity.
    now destruct (H l).
  - intros l ->. apply length_map.
  - apply convert_strings_id.
Qed.

Lemma X11_links_validator_witness :
  Crawl.convert_links_to_strings (Py.VStr "http://a") = []
  /\ length (Crawl.convert_links_to_strings (Py.VList Ex.spec_links)) = 4.
Proof.
  split.
  - destruct (X11_links_validator (Py.VStr "http://a")) as (H & _ & _).
    apply H. intros l. discriminate.
  - destruct (X11_links_validator (Py.VList Ex.spec_links)) as (_ & H & _).
    apply (H Ex.spec_links). reflexivity.
Defined.

(** X12. For a request that passes validation the page timeout given to
    the executor is the timeout in milliseconds, between 5000 and 120000:
    the fallback of 30000 is never taken. *)
Theorem X12_page_timeout_in_milliseconds (request : Crawl.CrawlRequest) :
  Crawl.CrawlRequest_valid request = true ->
  Crawl.cfg_page_timeout (Crawl.run_config_of request)
  = (Crawl.timeout request * 1000)%Z
  /\ (5000 <= Crawl.cfg_page_timeout (Crawl.run_config_of request)
      <= 120000)%Z.
Proof.
  unfold Crawl.CrawlRequest_valid, Crawl.timeout_ok. intros H.
  apply andb_prop in H as [H _]. apply andb_prop in H as [_ H].
  apply andb_prop in H as [H1 H2].
  apply Z.leb_le in H1. apply Z.leb_le in H2.
  unfold Crawl.run_config_of. simpl.
  destruct (Z.eqb_spec (Crawl.timeout request) 0); [lia |].
  split; [reflexivity | lia].
Qed.

Lemma X12_page_timeout_in_milliseconds_witness :
  Crawl.cfg_page_timeout (Crawl.run_config_of Ex.request_b) = 120000%Z
  /\ (5000 <= Crawl.cfg_page_timeout (Crawl.run_config_of Ex.request_b)
      <= 120000)%Z.
Proof.
  apply (X12_page_timeout_in_milliseconds Ex.request_b). reflexivity.
Defined.

(** X13. The executor is configured by the strategy names only through two
    distinctions: extraction is cosine or not, chunking is sliding or not.
    Two requests that differ in nothing but an extraction strategy other
    than cosine and a chunking strategy other than sliding, so [llm] for
    [auto] or [markdown] for [regex], give the executor the same
    configuration. *)
Theorem X13_strategies_seen_by_executor (r1 r2 : Crawl.CrawlRequest) :
  Crawl.extraction_strategy r1 <> "cosine"%string ->
  Crawl.extraction_strategy r2 <> "cosine"%string ->
  Crawl.chunking_strategy r1 <> "sliding"%string ->
  Crawl.chunking_strategy r2 <> "sliding"%string ->
  Crawl.screenshot r1 = Crawl.screenshot r2 ->
  Crawl.wait_for r1 = Crawl.wait_for r2 ->
  Crawl.timeout r1 = Crawl.timeout r2 ->
  Crawl.js_code r1 = Crawl.js_code r2 ->
  Crawl.css_selector r1 = Crawl.css_selector r2 ->
  Crawl.word_count_threshold r1 = Crawl.word_count_threshold r2 ->
  Crawl.run_config_of r1 = Crawl.run_config_of r2
  /\ Crawl.cfg_extraction_strategy (Crawl.run_config_of r1) = None
  /\ Crawl.cfg_chunking_strategy (Crawl.run_config_of r1)
     = Crawl.RegexChunking.
Proof.
  intros He1 He2 Hc1 Hc2 Hs Hw Ht Hj Hcs Hwc.
  assert (Hext : forall s, s <> "cosine"%string ->
                           Crawl.get_extraction_strategy s = None).
  { intros s Hne. unfold Crawl.get_extraction_strategy.
    now destruct (String.eqb_spec s "cosine"). }
  assert (Hchk : forall s, s <> "sliding"%string ->
                           Crawl.get_chunking_strategy s
                           = Crawl.RegexChunking).
  { intros s Hne. unfold Crawl.get_chunking_strategy.
    destruct (String.eqb s "regex"); [reflexivity |].
    destruct (String.eqb s "markdown"); [reflexivity |].
    now destruct (String.eqb_spec s "sliding"). }
  unfold Crawl.run_config_of. simpl.
  rewrite (Hext _ He1), (Hext _ He2), (Hchk _ Hc1), (Hchk _ Hc2).
  now rewrite Hs, Hw, Ht, Hj, Hcs, Hwc.
Qed.

Lemma X13_strategies_seen_by_executor_witness :
  let r1 :=
    {| Crawl.url := "http://a/"; Crawl.extraction_strategy := "llm";
       Crawl.chunking_strategy := "regex"; Crawl.screenshot := false;
       Crawl.wait_for := None; Crawl.timeout := 30; Crawl.js_code := None;
       Crawl.css_selector := None; Crawl.word_count_threshold := 10 |} in
  Crawl.run_config_of r1 = Crawl.run_config_of Ex.request_a
  /\ Crawl.cfg_extraction_strategy (Crawl.run_config_of r1) = None
  /\ Crawl.cfg_chunking_strategy (Crawl.run_config_of r1)
     = Crawl.RegexChunking.
Proof.
  intros r1.
  apply (X13_strategies_seen_by_executor r1 Ex.request_a);
    first [discriminate | reflexivity].
Defined.
